(** * lib/compute/autoscaler.js: the Autoscaler resource handle

    A shallow embedding of the Autoscaler handle of gcloud-node: its
    constructor and its two overrides, [delete] and [setMetadata], over a
    small model of the JavaScript store, in which objects are shared,
    mutable property maps reached through references.

    Scope of the store model.
    - Objects are ordinary extensible objects with writable data
      properties, and carry a class tag that stands for their prototype.
    - The module runs in strict mode: a property write to a primitive
      throws a TypeError, as do a property read of [undefined] or [null]
      and a call of what is not a function.
    - Numbers are integers, which is enough for truthiness.
    - Function values carry no properties of their own; the one write
      this module can aim at a function, [metadata.name = ...], is
      rejected in strict mode, and is so here.
    - Functions supplied by the caller are opaque: the model records each
      invocation of one, with its receiver and arguments, and takes
      [undefined] as what it returns.
    - The transport is an outbox of the requests handed to it; a request
      is completed later, by [deliver], which runs its callback.

    The base class (lib/common/service-object.js), the zone
    (lib/compute/zone.js) and [util.noop] are not among the sources at
    hand; what this handle uses of them is modelled from the
    specification, and marked so. *)

From stdpp Require Import gmap strings list fin_maps.

(** ** Values *)

(** Object references. *)
Definition loc := positive.

(** Functions that can be reached as first-class values: [util.noop], a
    function of the caller, and the methods a zone handle exposes. *)
Inductive func :=
  | FnNoop
  | FnUser (id : nat)
  | FnZoneOperation
  | FnZoneRequest
  | FnZoneCreateAutoscaler.

(** JavaScript values; [VBound f this] is [f.bind(this)]. *)
Inductive value :=
  | VUndefined
  | VNull
  | VBool (b : bool)
  | VNum (n : Z)
  | VStr (s : string)
  | VObj (l : loc)
  | VFun (f : func)
  | VBound (f : func) (this : value).

Global Instance func_eq_dec : EqDecision func.
Proof. solve_decision. Defined.

Global Instance value_eq_dec : EqDecision value.
Proof. solve_decision. Defined.

(** Function expressions, as closures over the variables they capture:
    the two of autoscaler.js, and those of the generic operations of the
    base class.  What a call site passes is a value or such a closure. *)
Inductive closure :=
  | KDelete (callback zone : value)
  | KSetMetadata (callback zone : value)
  | KGetMetadata (self : value) (callback : arg)
  | KGet (self options : value) (callback : arg)
  | KGetCreated (self options : value) (callback : arg)
  | KExists (callback : arg)
with arg :=
  | AVal (v : value)
  | AFun (k : closure).

(** An argument read as a value; one that was not passed is
    [undefined]. *)
Definition arg_value (a : option arg) : value :=
  match a with
  | Some (AVal v) => v
  | _ => VUndefined
  end.

(** ToBoolean. *)
Definition truthy (v : value) : bool :=
  match v with
  | VUndefined | VNull => false
  | VBool b => b
  | VNum n => negb (n =? 0)%Z
  | VStr s => negb (String.eqb s "")
  | VObj _ | VFun _ | VBound _ _ => true
  end.

(** [a || b] *)
Definition or_else (a b : value) : value := if truthy a then a else b.

(** ** The store *)

(** The classes of the objects that occur: plain objects, zone handles,
    Operation handles and Autoscaler handles. *)
Inductive cls := CObject | CZone | COperation | CAutoscaler.

(** An object: its class and its own properties. *)
Record object := Object { class : cls; props : gmap string value }.

(** A request handed to the transport, with the callback to complete. *)
Record request := Request {
  req_receiver : value;
  req_options : value;
  req_callback : arg
}.

(** One invocation of a function of the caller. *)
Record invocation := Invocation {
  inv_callee : nat;
  inv_this : value;
  inv_args : list arg
}.

(** The state a call runs in: the objects, the requests handed to the
    transport so far, and the invocations of functions of the caller so
    far, both in order. *)
Record world := World {
  heap : gmap loc object;
  outbox : list request;
  calls : list invocation
}.

Inductive exn := TypeError.

(** How a run ends: with a result, or with an exception thrown. *)
Inductive completion (A : Type) :=
  | Normal (a : A)
  | Throw (e : exn).
Arguments Normal {A} a.
Arguments Throw {A} e.

(** Runs: state passing, with exceptions.  What was written before a
    throw stays written. *)
Definition M (A : Type) : Type := world → completion A * world.

Global Instance M_ret : MRet M := λ A a w, (Normal a, w).
Global Instance M_bind : MBind M := λ A B f m w,
  match m w with
  | (Normal a, w') => f a w'
  | (Throw e, w') => (Throw e, w')
  end.

Definition throw {A} (e : exn) : M A := λ w, (Throw e, w).

(** Methods found on the prototype of a class.  Only the zone's are
    looked up by this module. *)
Definition prototype (c : cls) (key : string) : option value :=
  match c with
  | CZone =>
      if String.eqb key "operation" then Some (VFun FnZoneOperation)
      else if String.eqb key "request" then Some (VFun FnZoneRequest)
      else if String.eqb key "createAutoscaler" then Some (VFun FnZoneCreateAutoscaler)
      else None
  | _ => None
  end.

(** The object a reference leads to.  References are only made by
    [alloc], so they lead somewhere; for totality one that leads nowhere
    reads as an empty plain object. *)
Definition object_at (h : gmap loc object) (l : loc) : object :=
  default (Object CObject ∅) (h !! l).

(** [o.key] on an object: own property, then prototype, else undefined. *)
Definition lookup_prop (h : gmap loc object) (l : loc) (key : string) : value :=
  let o := object_at h l in
  match props o !! key with
  | Some v => v
  | None => default VUndefined (prototype (class o) key)
  end.

(** [v.key] *)
Definition get (v : value) (key : string) : M value := λ w,
  match v with
  | VUndefined | VNull => (Throw TypeError, w)
  | VObj l => (Normal (lookup_prop (heap w) l key), w)
  | _ => (Normal VUndefined, w)
  end.

(** The store after [l.key = x]. *)
Definition store_prop (h : gmap loc object) (l : loc) (key : string) (x : value)
    : gmap loc object :=
  let o := object_at h l in
  <[l := Object (class o) (<[key := x]> (props o))]> h.

(** [v.key = x] in strict mode: only objects take the write. *)
Definition set (v : value) (key : string) (x : value) : M unit := λ w,
  match v with
  | VObj l => (Normal (), World (store_prop (heap w) l key x) (outbox w) (calls w))
  | _ => (Throw TypeError, w)
  end.

(** A new object of class [c] with own properties [ps]. *)
Definition alloc (c : cls) (ps : gmap string value) : M value := λ w,
  let l := fresh (dom (heap w)) in
  (Normal (VObj l), World (<[l := Object c ps]> (heap w)) (outbox w) (calls w)).

(** An object literal. *)
Definition new_object (ps : gmap string value) : M value := alloc CObject ps.

(** A new object with the own properties of [v] except [key]. *)
Definition copy_without (v : value) (key : string) : M value := λ w,
  match v with
  | VObj l => new_object (delete key (props (object_at (heap w) l))) w
  | _ => new_object ∅ w
  end.

(** The transport takes a request. *)
Definition send (r : request) : M unit := λ w,
  (Normal (), World (heap w) (outbox w ++ [r]) (calls w)).

(** A function of the caller is invoked. *)
Definition record_call (i : invocation) : M unit := λ w,
  (Normal (), World (heap w) (outbox w) (calls w ++ [i])).

(** ** Collaborators *)

(** Modelled from the spec: [util.noop] of lib/common/util.js, which is
    not part of the sources at hand; a function that does nothing. *)
Definition util_noop : value := VFun FnNoop.

(** Modelled from the spec: [Zone.prototype.operation] of
    lib/compute/zone.js; a new Operation handle, identified by [name] and
    bound to the zone, created on every call. *)
Definition Zone_operation (this name : value) : M value :=
  alloc COperation {[ "parent" := this; "id" := name ]}.

(** Modelled from the spec: [Zone.prototype.request]; hands the options
    and the callback to the transport and returns at once.  The callback
    runs later, when the transport completes the request. *)
Definition Zone_request (this options : value) (callback : arg) : M value :=
  _ ← send (Request this options callback);
  mret VUndefined.

(** Modelled from the spec: [Zone.prototype.createAutoscaler]; a POST of
    the configuration to the zone's autoscaler-creation endpoint. *)
Definition Zone_createAutoscaler (this config : value) (callback : arg) : M value :=
  reqOpts ← new_object {[ "method" := VStr "POST"; "json" := config ]};
  _ ← send (Request this reqOpts callback);
  mret VUndefined.

(** The body of each function value, run with receiver [this]. *)
Definition run_func (f : func) (this : value) (args : list arg) : M value :=
  match f with
  | FnNoop => mret VUndefined
  | FnUser id => _ ← record_call (Invocation id this args); mret VUndefined
  | FnZoneOperation => Zone_operation this (arg_value (args !! 0%nat))
  | FnZoneRequest =>
      Zone_request this (arg_value (args !! 0%nat))
                   (default (AVal VUndefined) (args !! 1%nat))
  | FnZoneCreateAutoscaler =>
      Zone_createAutoscaler this (arg_value (args !! 0%nat))
                            (default (AVal VUndefined) (args !! 1%nat))
  end.

(** [callee.call(this, ...args)]; a bound function ignores [this]. *)
Definition call (callee this : value) (args : list arg) : M value :=
  match callee with
  | VFun f => run_func f this args
  | VBound f t => run_func f t args
  | _ => throw TypeError
  end.

(** [v.bind(this)]: on a function, [Function.prototype.bind]; on
    anything else, whatever its [bind] property holds is called on it. *)
Definition bind (v this : value) : M value :=
  match v with
  | VFun f => mret (VBound f this)
  | VBound f t => mret (VBound f t)
  | _ => bind_fn ← get v "bind"; call bind_fn v [AVal this]
  end.

(** Modelled from the spec: the constructor of the generic base,
    lib/common/service-object.js; it keeps the configuration on the
    handle and does no I/O. *)
Definition ServiceObject (this config : value) : M value :=
  parent ← get config "parent"; _ ← set this "parent" parent;
  baseUrl ← get config "baseUrl"; _ ← set this "baseUrl" baseUrl;
  id ← get config "id"; _ ← set this "id" id;
  createMethod ← get config "createMethod"; _ ← set this "createMethod" createMethod;
  methods ← get config "methods"; _ ← set this "methods" methods;
  mret VUndefined.

(** Modelled from the spec: [ServiceObject.prototype.request]; a request
    of the handle goes out through its parent's [request]. *)
Definition ServiceObject_request (this reqOpts : value) (callback : arg) : M value :=
  parent ← get this "parent";
  request ← get parent "request";
  call request parent [AVal reqOpts; callback].

(** Modelled from the spec: [ServiceObject.prototype.delete]; a DELETE on
    the resource path, given by the handle's base path and identifier. *)
Definition ServiceObject_delete (this : value) (callback : arg) : M value :=
  baseUrl ← get this "baseUrl";
  id ← get this "id";
  reqOpts ← new_object {[ "method" := VStr "DELETE"; "baseUrl" := baseUrl; "id" := id ]};
  ServiceObject_request this reqOpts callback.

(** Modelled from the spec: [ServiceObject.prototype.create]; the
    configuration goes to the create delegate kept at construction. *)
Definition ServiceObject_create (this config : value) (callback : arg) : M value :=
  createMethod ← get this "createMethod";
  call createMethod VUndefined [AVal config; callback].

(** Modelled from the spec: [ServiceObject.prototype.getMetadata]; a read
    of the resource, whose answer is stored on the handle (see
    [getMetadata_callback]). *)
Definition ServiceObject_getMetadata (this : value) (callback : arg) : M value :=
  baseUrl ← get this "baseUrl";
  id ← get this "id";
  reqOpts ← new_object {[ "method" := VStr "GET"; "baseUrl" := baseUrl; "id" := id ]};
  ServiceObject_request this reqOpts (AFun (KGetMetadata this callback)).

(** Modelled from the spec: [ServiceObject.prototype.get]; fetches the
    metadata (see [get_callback] for the auto-create flow). *)
Definition ServiceObject_get (this options : value) (callback : arg) : M value :=
  ServiceObject_getMetadata this (AFun (KGet this options callback)).

(** Modelled from the spec: [ServiceObject.prototype.exists]; performs a
    get (see [exists_callback]). *)
Definition ServiceObject_exists (this : value) (callback : arg) : M value :=
  ServiceObject_get this VUndefined (AFun (KExists callback)).

(** Modelled from the spec: the transport's not-found signal, which the
    spec leaves to the transport layer and names HTTP 404 as the example;
    here an error whose [code] is 404. *)
Definition is_not_found (err : value) : M bool :=
  code ← get err "code";
  mret (bool_decide (code = VNum 404)).

(** ** The Autoscaler handle (lib/compute/autoscaler.js) *)

(** [function Autoscaler(zone, name)], lines 63-147. *)
Definition Autoscaler (this zone name : value) : M value :=
  methods ← new_object {[ "create" := VBool true; "exists" := VBool true;
                          "get" := VBool true; "getMetadata" := VBool true ]};
  createAutoscaler ← get zone "createAutoscaler";
  createMethod ← bind createAutoscaler zone;
  config ← new_object {[ "parent" := zone; "baseUrl" := VStr "/autoscalers";
                         "id" := name; "createMethod" := createMethod;
                         "methods" := methods ]};
  _ ← ServiceObject this config;
  _ ← set this "name" name;
  _ ← set this "zone" zone;
  mret VUndefined.

(** [new Autoscaler(zone, name)] *)
Definition new_Autoscaler (zone name : value) : M value :=
  this ← alloc CAutoscaler ∅;
  _ ← Autoscaler this zone name;
  mret this.

(** The function expression of [delete], lines 173-183. *)
Definition delete_callback (callback zone : value) (err resp : value) : M value :=
  if truthy err then
    _ ← call callback VUndefined [AVal err; AVal VNull; AVal resp];
    mret VUndefined
  else
    operation_fn ← get zone "operation";
    name ← get resp "name";
    operation ← call operation_fn zone [AVal name];
    _ ← set operation "metadata" resp;
    _ ← call callback VUndefined [AVal VNull; AVal operation; AVal resp];
    mret VUndefined.

(** [Autoscaler.prototype.delete], lines 168-184. *)
Definition Autoscaler_delete (this callback : value) : M value :=
  let callback := or_else callback util_noop in
  zone ← get this "zone";
  _ ← ServiceObject_delete this (AFun (KDelete callback zone));
  mret VUndefined.

(** The function expression of [setMetadata], lines 225-235. *)
Definition setMetadata_callback (callback zone : value) (err resp : value) : M value :=
  if truthy err then
    _ ← call callback VUndefined [AVal err; AVal VNull; AVal resp];
    mret VUndefined
  else
    operation_fn ← get zone "operation";
    name ← get resp "name";
    operation ← call operation_fn zone [AVal name];
    _ ← set operation "metadata" resp;
    _ ← call callback VUndefined [AVal VNull; AVal operation; AVal resp];
    mret VUndefined.

(** [Autoscaler.prototype.setMetadata], lines 209-236. *)
Definition Autoscaler_setMetadata (this metadata callback : value) : M value :=
  zone ← get this "zone";
  let callback := or_else callback util_noop in
  metadata ← (if truthy metadata then mret metadata else new_object ∅);
  name ← get this "name";
  _ ← set metadata "name" name;
  this_zone ← get this "zone";
  zone_name ← get this_zone "name";
  _ ← set metadata "zone" zone_name;
  request ← get zone "request";
  autoscaler ← get this "name";
  qs ← new_object {[ "autoscaler" := autoscaler ]};
  reqOpts ← new_object {[ "method" := VStr "PATCH"; "uri" := VStr "/autoscalers";
                          "qs" := qs; "json" := metadata ]};
  _ ← call request zone [AVal reqOpts; AFun (KSetMetadata callback zone)];
  mret VUndefined.

(** ** Completions of the generic operations *)

Section generic_callbacks.
(** The callback the operation was given, ready to be applied. *)
Variable callback : list arg → M value.

(** Modelled from the spec: the completion of [getMetadata]; the
    metadata read is stored on the handle before it is returned. *)
Definition getMetadata_callback (self err resp : value) : M value :=
  if truthy err then
    callback [AVal err; AVal VNull; AVal resp]
  else
    _ ← set self "metadata" resp;
    metadata ← get self "metadata";
    callback [AVal VNull; AVal metadata; AVal resp].

(** Modelled from the spec: the completion of [exists]; not-found
    becomes [(null, false)], another error propagates, success is
    [(null, true)]. *)
Definition exists_callback (err : value) : M value :=
  if truthy err then
    missing ← is_not_found err;
    if missing : bool then callback [AVal VNull; AVal (VBool false)]
    else callback [AVal err]
  else
    callback [AVal VNull; AVal (VBool true)].
End generic_callbacks.

(** Modelled from the spec: the completion of the create that [get]
    starts when asked to auto-create; on success the get is retried. *)
Definition getCreated_callback (self options : value) (callback : arg)
    (apply_callback : list arg → M value) (err resp : value) : M value :=
  if truthy err then
    apply_callback [AVal err; AVal VNull; AVal resp]
  else
    ServiceObject_get self options callback.

(** Modelled from the spec: the completion of [get]; when the resource is
    missing and [options.autoCreate] is set, create it from the remaining
    options and retry, otherwise hand over the outcome. *)
Definition get_callback (self options : value) (callback : arg)
    (apply_callback : list arg → M value) (err resp : value) : M value :=
  if truthy err then
    missing ← is_not_found err;
    autoCreate ← (if truthy options then get options "autoCreate" else mret VUndefined);
    if (missing : bool) && truthy autoCreate then
      config ← copy_without options "autoCreate";
      ServiceObject_create self config (AFun (KGetCreated self options callback))
    else
      apply_callback [AVal err; AVal VNull; AVal resp]
  else
    apply_callback [AVal VNull; AVal self; AVal resp].

(** ** Running callbacks *)

(** A closure is run with the arguments it is called with; [apply_arg]
    calls what a call site was passed. *)
Fixpoint resume (k : closure) (args : list arg) {struct k} : M value :=
  match k with
  | KDelete callback zone =>
      delete_callback callback zone (arg_value (args !! 0%nat)) (arg_value (args !! 1%nat))
  | KSetMetadata callback zone =>
      setMetadata_callback callback zone (arg_value (args !! 0%nat)) (arg_value (args !! 1%nat))
  | KGetMetadata self callback =>
      getMetadata_callback (apply_arg callback) self
        (arg_value (args !! 0%nat)) (arg_value (args !! 1%nat))
  | KGet self options callback =>
      get_callback self options callback (apply_arg callback)
        (arg_value (args !! 0%nat)) (arg_value (args !! 2%nat))
  | KGetCreated self options callback =>
      getCreated_callback self options callback (apply_arg callback)
        (arg_value (args !! 0%nat)) (arg_value (args !! 1%nat))
  | KExists callback =>
      exists_callback (apply_arg callback) (arg_value (args !! 0%nat))
  end
with apply_arg (a : arg) (args : list arg) {struct a} : M value :=
  match a with
  | AVal v => call v VUndefined args
  | AFun k => resume k args
  end.

(** The transport completes the [i]-th request it was handed with the
    outcome [(err, resp)]: the callback of that request runs. *)
Definition deliver (i : nat) (err resp : value) : M value := λ w,
  match outbox w !! i with
  | Some r => apply_arg (req_callback r) [AVal err; AVal resp] w
  | None => (Normal VUndefined, w)
  end.

(** ** Handles *)

(** The collaborator contract of a zone: it exposes [operation],
    [request] and [createAutoscaler]. *)
Definition zone_handle (w : world) (z : loc) : Prop :=
  lookup_prop (heap w) z "operation" = VFun FnZoneOperation ∧
  lookup_prop (heap w) z "request" = VFun FnZoneRequest ∧
  lookup_prop (heap w) z "createAutoscaler" = VFun FnZoneCreateAutoscaler.

(** An Autoscaler handle of the zone [z]. *)
Definition autoscaler_handle (w : world) (a z : loc) : Prop :=
  lookup_prop (heap w) a "zone" = VObj z ∧
  lookup_prop (heap w) a "parent" = VObj z.

(** What [setMetadata] takes as metadata: an object, or nothing. *)
Definition metadata_arg (metadata : value) : Prop :=
  (∃ m, metadata = VObj m) ∨ truthy metadata = false.

(** The two operations the handle overrides, with what each takes
    besides the callback. *)
Inductive override :=
  | Delete
  | SetMetadata (metadata : value).

(** [autoscaler.delete(callback)] or
    [autoscaler.setMetadata(metadata, callback)]. *)
Definition run_override (o : override) (this callback : value) : M value :=
  match o with
  | Delete => Autoscaler_delete this callback
  | SetMetadata metadata => Autoscaler_setMetadata this metadata callback
  end.

(** The override is given what it takes. *)
Definition override_arg (o : override) : Prop :=
  match o with
  | Delete => True
  | SetMetadata metadata => metadata_arg metadata
  end.

(** The function expression the override hands to the transport. *)
Definition override_closure (o : override) (callback zone : value) : closure :=
  match o with
  | Delete => KDelete callback zone
  | SetMetadata _ => KSetMetadata callback zone
  end.

(** The world in which the callback of a successful completion runs:
    the Operation handle [op] is there, with the response as metadata. *)
Definition with_operation (w : world) (op : loc) (zone name resp : value) : world :=
  World (<[op := Object COperation
             {[ "parent" := zone; "id" := name; "metadata" := resp ]}]> (heap w))
        (outbox w) (calls w).

(** ** Every operation on a handle *)

(** What can happen to the world of a handle: a further handle is made,
    one of the operations of a handle is called, or the transport
    completes a request. *)
Inductive operation :=
  | New (zone name : value)
  | Override (o : override) (this callback : value)
  | Create (this config callback : value)
  | Exists (this callback : value)
  | Get (this options callback : value)
  | GetMetadata (this callback : value)
  | Complete (i : nat) (err resp : value).

(** The run an operation stands for. *)
Definition perform (op : operation) : M value :=
  match op with
  | New zone name => new_Autoscaler zone name
  | Override o this callback => run_override o this callback
  | Create this config callback => ServiceObject_create this config (AVal callback)
  | Exists this callback => ServiceObject_exists this (AVal callback)
  | Get this options callback => ServiceObject_get this options (AVal callback)
  | GetMetadata this callback => ServiceObject_getMetadata this (AVal callback)
  | Complete i err resp => deliver i err resp
  end.

(** The world after a run of operations; one that throws leaves the
    world it had reached, and the run goes on. *)
Definition perform_all (ops : list operation) (w : world) : world :=
  foldl (λ w op, (perform op w).2) w ops.

(** The operation is a setMetadata that is given [a] as its metadata. *)
Definition writes_onto (a : loc) (op : operation) : bool :=
  match op with
  | Override (SetMetadata (VObj m)) _ _ => bool_decide (m = a)
  | _ => false
  end.

(** Induction over closures and the callbacks inside them. *)
Scheme closure_arg_ind := Induction for closure Sort Prop
  with arg_closure_ind := Induction for arg Sort Prop.

(** ** Worlds to run the handle in *)

(** A zone handle named us-central1-a, and nothing else. *)
Definition zone_world : world :=
  World {[ 1%positive := Object CZone {[ "name" := VStr "us-central1-a" ]} ]} [] [].

(** After [zone.autoscaler('autoscaler-name')]: the handle is object 2. *)
Definition handle_world : world :=
  (new_Autoscaler (VObj 1%positive) (VStr "autoscaler-name") zone_world).2.

(** [w] with one more object, a response body [ps], at its next free
    location. *)
Definition with_response (w : world) (ps : gmap string value) : world :=
  World (<[fresh (dom (heap w)) := Object CObject ps]> (heap w)) (outbox w) (calls w).

(** ** Reasoning about runs *)

(** [Q] holds of the outcome of [m] from [w]. *)
Definition wp {A} (m : M A) (Q : completion A → world → Prop) (w : world) : Prop :=
  Q (m w).1 (m w).2.

(** What the rest of a sequence requires of the outcome of its head. *)
Definition bind_post {A B} (f : A → M B) (Q : completion B → world → Prop)
    (r : completion A) (w : world) : Prop :=
  match r with
  | Normal a => wp (f a) Q w
  | Throw e => Q (Throw e) w
  end.

(** The object [a] is still there, with the class of [o] and the
    properties of [o] that [K] selects. *)
Definition kept (a : loc) (K : string → Prop) (o : object) (w : world) : Prop :=
  ∃ o', heap w !! a = Some o' ∧ class o' = class o ∧
        ∀ key, K key → props o' !! key = props o !! key.

(** [m] keeps [a] so, however it ends, and what it returns has [Q]. *)
Definition keeps (a : loc) (K : string → Prop) (o : object) {A} (m : M A)
    (Q : A → Prop) : Prop :=
  ∀ w, kept a K o w → kept a K o (m w).2 ∧ ∀ r, (m w).1 = Normal r → Q r.

(** A value that is not a reference to [a]. *)
Definition other (a : loc) (v : value) : Prop := v ≠ VObj a.

(** ** Kinds of values *)

(** A boolean, a number or a string. *)
Definition primitive (v : value) : bool :=
  match v with
  | VBool _ | VNum _ | VStr _ => true
  | _ => false
  end.

(** [undefined] or [null]. *)
Definition nullish (v : value) : bool :=
  match v with
  | VUndefined | VNull => true
  | _ => false
  end.

(** A function, bound or not. *)
Definition callable (v : value) : bool :=
  match v with
  | VFun _ | VBound _ _ => true
  | _ => false
  end.

(** A function of the caller, bound or not. *)
Definition user_function (v : value) : bool :=
  match v with
  | VFun (FnUser _) | VBound (FnUser _) _ => true
  | _ => false
  end.

(** ** The store: lookups after writes and allocations *)

Lemma fresh_unallocated (h : gmap loc object) : h !! fresh (dom h) = None.
Proof. apply not_elem_of_dom, is_fresh. Qed.

Lemma lookup_prop_store_eq h l key x : lookup_prop (store_prop h l key x) l key = x.
Proof.
  unfold lookup_prop, store_prop, object_at.
  rewrite lookup_insert_eq. simpl. by rewrite lookup_insert_eq.
Qed.

Lemma lookup_prop_store_key h l key x l' key' :
  key ≠ key' → lookup_prop (store_prop h l key x) l' key' = lookup_prop h l' key'.
Proof.
  intros Hk. unfold lookup_prop, store_prop, object_at.
  destruct (decide (l = l')) as [->|Hl].
  - rewrite lookup_insert_eq. simpl. by rewrite lookup_insert_ne.
  - by rewrite lookup_insert_ne.
Qed.

Lemma lookup_prop_store_loc h l key x l' key' :
  l ≠ l' → lookup_prop (store_prop h l key x) l' key' = lookup_prop h l' key'.
Proof.
  intros Hl. unfold lookup_prop, store_prop, object_at. by rewrite lookup_insert_ne.
Qed.

Lemma lookup_prop_insert_eq h l c ps key v :
  ps !! key = Some v → lookup_prop (<[l := Object c ps]> h) l key = v.
Proof.
  intros Hv. unfold lookup_prop, object_at. rewrite lookup_insert_eq. simpl. by rewrite Hv.
Qed.

Lemma lookup_prop_insert_ne h l o l' key :
  l ≠ l' → lookup_prop (<[l := o]> h) l' key = lookup_prop h l' key.
Proof. intros Hl. unfold lookup_prop, object_at. by rewrite lookup_insert_ne. Qed.

Lemma lookup_prop_unallocated h l key : h !! l = None → lookup_prop h l key = VUndefined.
Proof. intros Hl. unfold lookup_prop, object_at. by rewrite Hl. Qed.

Lemma lookup_prop_allocated h l key :
  lookup_prop h l key ≠ VUndefined → is_Some (h !! l).
Proof.
  intros Hv. destruct (h !! l) eqn:E; [eauto|].
  by rewrite lookup_prop_unallocated in Hv.
Qed.

Lemma class_store_prop h l key x l' :
  class (object_at (store_prop h l key x) l') = class (object_at h l').
Proof.
  unfold store_prop, object_at. destruct (decide (l = l')) as [->|Hl].
  - by rewrite lookup_insert_eq.
  - by rewrite lookup_insert_ne.
Qed.

Lemma lookup_store_prop_ne h l key x l' :
  l ≠ l' → store_prop h l key x !! l' = h !! l'.
Proof. intros Hl. unfold store_prop. by rewrite lookup_insert_ne. Qed.

Lemma props_store_prop h l key x :
  props (object_at (store_prop h l key x) l) = <[key := x]> (props (object_at h l)).
Proof. unfold store_prop, object_at. by rewrite lookup_insert_eq. Qed.

Lemma object_at_insert_ne h l o l' : l ≠ l' → object_at (<[l := o]> h) l' = object_at h l'.
Proof. intros Hl. unfold object_at. by rewrite lookup_insert_ne. Qed.

Lemma object_at_insert_eq h l o : object_at (<[l := o]> h) l = o.
Proof. unfold object_at. by rewrite lookup_insert_eq. Qed.

(** Writing to [l.key] the value [l'.key] has leaves [l'.key] as it was,
    whether or not [l] and [l'] are the same object. *)
Lemma lookup_prop_store_same h l l' key :
  lookup_prop (store_prop h l key (lookup_prop h l' key)) l' key = lookup_prop h l' key.
Proof.
  destruct (decide (l = l')) as [->|Hl].
  - apply lookup_prop_store_eq.
  - by apply lookup_prop_store_loc.
Qed.

Lemma zone_handle_allocated w z : zone_handle w z → is_Some (heap w !! z).
Proof. intros [Hz _]. apply (lookup_prop_allocated _ _ "operation"). by rewrite Hz. Qed.

Lemma autoscaler_handle_allocated w a z : autoscaler_handle w a z → is_Some (heap w !! a).
Proof. intros [Hz _]. apply (lookup_prop_allocated _ _ "zone"). by rewrite Hz. Qed.

(** ** Rules for [wp] *)

Lemma wp_normal {A} (m : M A) (P : A → world → Prop) w :
  wp m (λ r w', ∃ a, r = Normal a ∧ P a w') w →
  ∃ a w', m w = (Normal a, w') ∧ P a w'.
Proof.
  unfold wp. destruct (m w) as [r w']. simpl. intros (a & -> & H). eauto.
Qed.

Lemma wp_bind {A B} (m : M A) (f : A → M B) Q w :
  wp m (bind_post f Q) w → wp (m ≫= f) Q w.
Proof.
  unfold wp, bind_post, mbind, M_bind. destruct (m w) as [[a|e] w']; simpl; auto.
Qed.

Lemma wp_ret {A} (a : A) (Q : completion A → world → Prop) w :
  Q (Normal a) w → wp (mret a) Q w.
Proof. done. Qed.

Lemma wp_throw {A} e (Q : completion A → world → Prop) w :
  Q (Throw e) w → wp (throw e) Q w.
Proof. done. Qed.

Lemma wp_get_obj l key (Q : completion value → world → Prop) w :
  Q (Normal (lookup_prop (heap w) l key)) w → wp (get (VObj l) key) Q w.
Proof. done. Qed.

Lemma wp_set_obj l key x (Q : completion () → world → Prop) w :
  Q (Normal ()) (World (store_prop (heap w) l key x) (outbox w) (calls w)) →
  wp (set (VObj l) key x) Q w.
Proof. done. Qed.

Lemma wp_alloc c ps (Q : completion value → world → Prop) w :
  (∀ l, heap w !! l = None →
        Q (Normal (VObj l)) (World (<[l := Object c ps]> (heap w)) (outbox w) (calls w))) →
  wp (alloc c ps) Q w.
Proof. intros H. apply H, fresh_unallocated. Qed.

Lemma wp_send r (Q : completion () → world → Prop) w :
  Q (Normal ()) (World (heap w) (outbox w ++ [r]) (calls w)) → wp (send r) Q w.
Proof. done. Qed.

Lemma wp_record_call i (Q : completion () → world → Prop) w :
  Q (Normal ()) (World (heap w) (outbox w) (calls w ++ [i])) → wp (record_call i) Q w.
Proof. done. Qed.

(** Splits [h' !! l = None], for [h'] built from [h] by writes and
    allocations, into [h !! l = None] and the disequalities of [l]. *)
Ltac fresh_norm H :=
  cbn [heap] in H; unfold store_prop in H;
  repeat (let Hne := fresh "Hne" in apply lookup_insert_None in H as [H Hne]).

Ltac heap_simpl_1 :=
  match goal with
  | |- context [lookup_prop (store_prop ?h ?l ?k ?x) ?l' ?k'] =>
      first [ rewrite (lookup_prop_store_eq h l k x)
            | rewrite (lookup_prop_store_key h l k x l' k') by done
            | rewrite (lookup_prop_store_loc h l k x l' k') by congruence
            | rewrite (lookup_prop_store_same h l l' k) ]
  | |- context [lookup_prop (<[?l := ?o]> ?h) ?l' ?k] =>
      first [ rewrite (lookup_prop_insert_ne h l o l' k) by congruence
            | erewrite (lookup_prop_insert_eq h l _ _ k) by reflexivity ]
  end.

Ltac heap_simpl := repeat heap_simpl_1.

Ltac wp_step :=
  lazymatch goal with
  | |- wp (mbind _ _) _ _ => apply wp_bind
  | |- wp (mret _) _ _ => apply wp_ret
  | |- wp (throw _) _ _ => apply wp_throw
  | |- wp (get (VObj _) _) _ _ => apply wp_get_obj
  | |- wp (set (VObj _) _ _) _ _ => apply wp_set_obj
  | |- wp (alloc _ _) _ _ =>
      let l := fresh "l" in let Hl := fresh "Hl" in
      apply wp_alloc; intros l Hl; fresh_norm Hl
  | |- wp (new_object _) _ _ =>
      let l := fresh "l" in let Hl := fresh "Hl" in
      apply wp_alloc; intros l Hl; fresh_norm Hl
  | |- wp (send _) _ _ => apply wp_send
  | |- wp (record_call _) _ _ => apply wp_record_call
  | |- bind_post _ _ (Normal _) _ => unfold bind_post
  | |- bind_post _ _ (Throw _) _ => unfold bind_post
  end; cbn [heap outbox calls].

Ltac wp_steps := repeat (wp_step; heap_simpl).

(** ** Construction *)

(** C8. Constructing an Autoscaler from a zone handle and a name hands
    nothing to the transport and calls no function of the caller; it
    yields a new handle with base path [/autoscalers], identifier [name],
    a capability table with create, exists, get and getMetadata set, and
    the zone's [createAutoscaler] bound to the zone as create delegate.
    The handle's [name] and [zone] are the arguments, and the objects
    that existed before are left as they were. *)
Theorem Autoscaler_construction (w : world) (z : loc) (name : value) :
  zone_handle w z →
  ∃ (this : value) (w' : world),
    new_Autoscaler (VObj z) name w = (Normal this, w') ∧
    ∃ a m : loc,
      this = VObj a ∧
      heap w !! a = None ∧
      outbox w' = outbox w ∧
      calls w' = calls w ∧
      class (object_at (heap w') a) = CAutoscaler ∧
      lookup_prop (heap w') a "baseUrl" = VStr "/autoscalers" ∧
      lookup_prop (heap w') a "id" = name ∧
      lookup_prop (heap w') a "parent" = VObj z ∧
      lookup_prop (heap w') a "methods" = VObj m ∧
      heap w' !! m = Some (Object CObject
        {[ "create" := VBool true; "exists" := VBool true;
           "get" := VBool true; "getMetadata" := VBool true ]}) ∧
      lookup_prop (heap w') a "createMethod" = VBound FnZoneCreateAutoscaler (VObj z) ∧
      lookup_prop (heap w') a "name" = name ∧
      lookup_prop (heap w') a "zone" = VObj z ∧
      (∀ l, is_Some (heap w !! l) → heap w' !! l = heap w !! l).
Proof.
  intros (Hop & Hreq & Hcreate).
  apply wp_normal.
  unfold new_Autoscaler, Autoscaler, ServiceObject.
  destruct (zone_handle_allocated w z) as [oz Hz]; [done|].
  wp_steps. rewrite Hcreate. simpl. wp_steps.
  eexists. split; [reflexivity|]. exists l, l0.
  repeat split; try done; heap_simpl; try done.
  - rewrite !class_store_prop. unfold object_at.
    rewrite !lookup_insert_ne by done. by rewrite lookup_insert_eq.
  - rewrite !lookup_store_prop_ne, lookup_insert_ne by done.
    by rewrite lookup_insert_eq.
  - intros l' [o Ho].
    rewrite !lookup_store_prop_ne, !lookup_insert_ne by congruence. done.
Qed.

Lemma Autoscaler_construction_witness :
  let w := zone_world in
  let z := 1%positive in
  let name := VStr "autoscaler-name" in
  ∃ (this : value) (w' : world),
    new_Autoscaler (VObj z) name w = (Normal this, w') ∧
    ∃ a m : loc,
      this = VObj a ∧
      heap w !! a = None ∧
      outbox w' = outbox w ∧
      calls w' = calls w ∧
      class (object_at (heap w') a) = CAutoscaler ∧
      lookup_prop (heap w') a "baseUrl" = VStr "/autoscalers" ∧
      lookup_prop (heap w') a "id" = name ∧
      lookup_prop (heap w') a "parent" = VObj z ∧
      lookup_prop (heap w') a "methods" = VObj m ∧
      heap w' !! m = Some (Object CObject
        {[ "create" := VBool true; "exists" := VBool true;
           "get" := VBool true; "getMetadata" := VBool true ]}) ∧
      lookup_prop (heap w') a "createMethod" = VBound FnZoneCreateAutoscaler (VObj z) ∧
      lookup_prop (heap w') a "name" = name ∧
      lookup_prop (heap w') a "zone" = VObj z ∧
      (∀ l, is_Some (heap w !! l) → heap w' !! l = heap w !! l).
Proof.
  intros w z name.
  apply (Autoscaler_construction w z name).
  repeat split; vm_compute; reflexivity.
Defined.

(** The handle the constructor makes is one the lemmas below speak of,
    and making it leaves the zone a zone handle. *)
Lemma constructed_handle (w : world) (z : loc) (name : value) :
  zone_handle w z →
  ∃ (this : value) (w' : world),
    new_Autoscaler (VObj z) name w = (Normal this, w') ∧
    ∃ a : loc,
      this = VObj a ∧
      autoscaler_handle w' a z ∧
      zone_handle w' z ∧
      lookup_prop (heap w') a "name" = name.
Proof.
  intros (Hop & Hreq & Hcreate).
  apply wp_normal.
  unfold new_Autoscaler, Autoscaler, ServiceObject.
  destruct (lookup_prop_allocated (heap w) z "request") as [oz Hz]; [by rewrite Hreq|].
  wp_steps. rewrite Hcreate. simpl. wp_steps.
  eexists. split; [reflexivity|]. exists l.
  unfold autoscaler_handle, zone_handle. cbn [heap]. heap_simpl.
  by rewrite Hop, Hreq, Hcreate.
Qed.

(** ** The two overrides: what a call hands to the transport *)

Lemma Autoscaler_delete_sends (w : world) (a z : loc) (callback : value) :
  autoscaler_handle w a z →
  zone_handle w z →
  ∃ (u : value) (w1 : world),
    Autoscaler_delete (VObj a) callback w = (Normal u, w1) ∧
    u = VUndefined ∧
    calls w1 = calls w ∧
    ∃ reqOpts : loc,
      heap w !! reqOpts = None ∧
      heap w1 = <[reqOpts := Object CObject
                    {[ "method" := VStr "DELETE";
                       "baseUrl" := lookup_prop (heap w) a "baseUrl";
                       "id" := lookup_prop (heap w) a "id" ]}]> (heap w) ∧
      outbox w1 = outbox w ++
        [Request (VObj z) (VObj reqOpts)
                 (AFun (KDelete (or_else callback util_noop) (VObj z)))].
Proof.
  intros [Hzone Hparent] (Hop & Hreq & Hcreate).
  destruct (lookup_prop_allocated (heap w) a "zone") as [oa Ha]; [by rewrite Hzone|].
  destruct (lookup_prop_allocated (heap w) z "request") as [oz Hz]; [by rewrite Hreq|].
  apply wp_normal.
  unfold Autoscaler_delete, ServiceObject_delete, ServiceObject_request.
  wp_steps. rewrite Hzone. wp_steps. rewrite Hparent. wp_steps. rewrite Hreq.
  unfold call, run_func, Zone_request. simpl. wp_steps.
  eexists. split; [reflexivity|]. repeat split. by exists l.
Qed.

(** The facts about the world [setMetadata] leaves, once it has run. *)
Ltac sends_facts :=
  repeat split; try done; try (by auto);
  [ rewrite lookup_insert_eq; heap_simpl; done
  | rewrite lookup_insert_ne, lookup_insert_eq by done; heap_simpl; done
  | rewrite !object_at_insert_ne, !props_store_prop by done; heap_simpl;
    try rewrite object_at_insert_eq; try done
  | rewrite !object_at_insert_ne, !class_store_prop by done;
    try rewrite object_at_insert_eq; try done
  | let l' := fresh "l" in let o := fresh "o" in let Ho := fresh "Ho" in
    intros l' ? [o Ho];
    rewrite !lookup_insert_ne, ?lookup_store_prop_ne, ?lookup_insert_ne by congruence;
    done ].

Lemma Autoscaler_setMetadata_sends (w : world) (a z : loc) (metadata callback : value) :
  autoscaler_handle w a z →
  zone_handle w z →
  metadata_arg metadata →
  ∃ (u : value) (w1 : world),
    Autoscaler_setMetadata (VObj a) metadata callback w = (Normal u, w1) ∧
    u = VUndefined ∧
    calls w1 = calls w ∧
    ∃ body qs reqOpts : loc,
      (metadata = VObj body ∨ truthy metadata = false ∧ heap w !! body = None) ∧
      heap w !! qs = None ∧ heap w !! reqOpts = None ∧
      body ≠ qs ∧ body ≠ reqOpts ∧ qs ≠ reqOpts ∧
      outbox w1 = outbox w ++
        [Request (VObj z) (VObj reqOpts)
                 (AFun (KSetMetadata (or_else callback util_noop) (VObj z)))] ∧
      heap w1 !! reqOpts = Some (Object CObject
        {[ "method" := VStr "PATCH"; "uri" := VStr "/autoscalers";
           "qs" := VObj qs; "json" := VObj body ]}) ∧
      heap w1 !! qs = Some (Object CObject
        {[ "autoscaler" := lookup_prop (heap w) a "name" ]}) ∧
      props (object_at (heap w1) body) =
        <["zone" := lookup_prop (heap w1) z "name"]>
          (<["name" := lookup_prop (heap w) a "name"]> (props (object_at (heap w) body))) ∧
      class (object_at (heap w1) body) = class (object_at (heap w) body) ∧
      (∀ l, l ≠ body → is_Some (heap w !! l) → heap w1 !! l = heap w !! l).
Proof.
  intros [Hzone Hparent] (Hop & Hreq & Hcreate) Hmd.
  destruct (lookup_prop_allocated (heap w) a "zone") as [oa Ha]; [by rewrite Hzone|].
  destruct (lookup_prop_allocated (heap w) z "request") as [oz Hz]; [by rewrite Hreq|].
  apply wp_normal. unfold Autoscaler_setMetadata.
  wp_steps. rewrite Hzone. wp_steps.
  destruct Hmd as [[m ->]|Hmd].
  - simpl. wp_steps. rewrite Hzone. wp_steps. rewrite Hreq.
    unfold call, run_func, Zone_request. simpl. wp_steps.
    eexists. split; [reflexivity|]. repeat split.
    exists m, l, l0. sends_facts.
  - rewrite Hmd. wp_steps. rewrite Hzone. wp_steps. rewrite Hreq.
    unfold call, run_func, Zone_request. simpl. wp_steps.
    eexists. split; [reflexivity|]. repeat split.
    exists l, l0, l1. sends_facts.
    all: unfold object_at; by rewrite Hl.
Qed.

(** ** The two overrides: completion *)

Lemma operation_props (zone name resp : value) :
  <["metadata" := resp]> ({[ "parent" := zone; "id" := name ]} : gmap string value) =
  {[ "parent" := zone; "id" := name; "metadata" := resp ]}.
Proof.
  rewrite <- !insert_empty.
  rewrite (insert_insert_ne _ "metadata" "parent") by done.
  by rewrite (insert_insert_ne _ "metadata" "id").
Qed.

Lemma store_prop_insert h l c ps key x :
  store_prop (<[l := Object c ps]> h) l key x = <[l := Object c (<[key := x]> ps)]> h.
Proof.
  unfold store_prop, object_at. rewrite lookup_insert_eq. simpl.
  by rewrite insert_insert_eq.
Qed.

Lemma delete_callback_success (callback : value) (z r : loc) (err : value) (w : world) :
  lookup_prop (heap w) z "operation" = VFun FnZoneOperation →
  truthy err = false →
  delete_callback callback (VObj z) err (VObj r) w =
    (_ ← call callback VUndefined
           [AVal VNull; AVal (VObj (fresh (dom (heap w)))); AVal (VObj r)];
     mret VUndefined)
      (with_operation w (fresh (dom (heap w))) (VObj z)
         (lookup_prop (heap w) r "name") (VObj r)).
Proof.
  intros Hop Herr. unfold delete_callback. rewrite Herr.
  unfold mbind at 1, M_bind at 1. simpl. rewrite Hop.
  unfold mbind at 1, M_bind at 1. simpl.
  unfold mbind at 1, M_bind at 1. simpl.
  unfold mbind at 1, M_bind at 1. simpl.
  rewrite store_prop_insert, operation_props. reflexivity.
Qed.

Lemma setMetadata_callback_success (callback : value) (z r : loc) (err : value) (w : world) :
  lookup_prop (heap w) z "operation" = VFun FnZoneOperation →
  truthy err = false →
  setMetadata_callback callback (VObj z) err (VObj r) w =
    (_ ← call callback VUndefined
           [AVal VNull; AVal (VObj (fresh (dom (heap w)))); AVal (VObj r)];
     mret VUndefined)
      (with_operation w (fresh (dom (heap w))) (VObj z)
         (lookup_prop (heap w) r "name") (VObj r)).
Proof.
  intros Hop Herr. unfold setMetadata_callback. rewrite Herr.
  unfold mbind at 1, M_bind at 1. simpl. rewrite Hop.
  unfold mbind at 1, M_bind at 1. simpl.
  unfold mbind at 1, M_bind at 1. simpl.
  unfold mbind at 1, M_bind at 1. simpl.
  rewrite store_prop_insert, operation_props. reflexivity.
Qed.

Lemma call_noop (this : value) (args : list arg) (w : world) :
  (_ ← call util_noop this args; mret VUndefined) w = (Normal VUndefined, w).
Proof. reflexivity. Qed.

Lemma deliver_pending (w : world) (i : nat) (r : request) (err resp : value) :
  outbox w !! i = Some r →
  deliver i err resp w = apply_arg (req_callback r) [AVal err; AVal resp] w.
Proof. intros H. unfold deliver. by rewrite H. Qed.

(** ** delete *)

(** C1. A delete on a handle of a zone returns normally, and when the
    transport later completes its request with success (a falsy error
    and a response object [r]), in any world [w2] where the request is
    still the one handed over and the zone still a zone handle: a new
    Operation handle [op] is built, bound to the zone, with identifier
    [r.name] and with the very object [r] as metadata, and the callback
    is called with [(null, op, r)]; for a function of the caller this
    invocation is recorded. *)
Theorem delete_success (w : world) (a z : loc) (callback : value)
    (w2 : world) (err : value) (r : loc) :
  autoscaler_handle w a z →
  zone_handle w z →
  outbox w2 !! length (outbox w) =
    outbox (Autoscaler_delete (VObj a) callback w).2 !! length (outbox w) →
  zone_handle w2 z →
  truthy err = false →
  let op := fresh (dom (heap w2)) in
  let w3 := World (<[op := Object COperation
                       {[ "parent" := VObj z;
                          "id" := lookup_prop (heap w2) r "name";
                          "metadata" := VObj r ]}]> (heap w2))
                  (outbox w2) (calls w2) in
  (Autoscaler_delete (VObj a) callback w).1 = Normal VUndefined ∧
  heap w2 !! op = None ∧
  deliver (length (outbox w)) err (VObj r) w2 =
    (_ ← call (or_else callback util_noop) VUndefined
           [AVal VNull; AVal (VObj op); AVal (VObj r)];
     mret VUndefined) w3 ∧
  ∀ id, callback = VFun (FnUser id) →
    deliver (length (outbox w)) err (VObj r) w2 =
      (Normal VUndefined,
       World (heap w3) (outbox w2)
             (calls w2 ++ [Invocation id VUndefined
                             [AVal VNull; AVal (VObj op); AVal (VObj r)]])).
Proof.
  intros Ha Hz Hout Hz2 Herr op w3.
  destruct (Autoscaler_delete_sends w a z callback Ha Hz)
    as (u & w1 & E & -> & _ & reqOpts & _ & _ & Hout1).
  rewrite E in Hout |- *. simpl in Hout.
  rewrite Hout1, lookup_app_r, Nat.sub_diag in Hout by done. simpl in Hout.
  assert (Hrun : deliver (length (outbox w)) err (VObj r) w2 =
    (_ ← call (or_else callback util_noop) VUndefined
           [AVal VNull; AVal (VObj op); AVal (VObj r)];
     mret VUndefined) w3).
  { rewrite (deliver_pending _ _ _ _ _ Hout). simpl.
    apply delete_callback_success; [apply Hz2 | done]. }
  repeat split.
  - apply fresh_unallocated.
  - exact Hrun.
  - intros id ->. rewrite Hrun. reflexivity.
Qed.

Lemma delete_success_witness :
  let w := handle_world in
  let callback := VFun (FnUser 7) in
  let w1 := (Autoscaler_delete (VObj 2%positive) callback w).2 in
  let w2 := with_response w1 {[ "name" := VStr "operation-1" ]} in
  let r := fresh (dom (heap w1)) in
  let op := fresh (dom (heap w2)) in
  let w3 := World (<[op := Object COperation
                       {[ "parent" := VObj 1%positive;
                          "id" := lookup_prop (heap w2) r "name";
                          "metadata" := VObj r ]}]> (heap w2))
                  (outbox w2) (calls w2) in
  (Autoscaler_delete (VObj 2%positive) callback w).1 = Normal VUndefined ∧
  heap w2 !! op = None ∧
  deliver (length (outbox w)) VNull (VObj r) w2 =
    (_ ← call (or_else callback util_noop) VUndefined
           [AVal VNull; AVal (VObj op); AVal (VObj r)];
     mret VUndefined) w3 ∧
  ∀ id, callback = VFun (FnUser id) →
    deliver (length (outbox w)) VNull (VObj r) w2 =
      (Normal VUndefined,
       World (heap w3) (outbox w2)
             (calls w2 ++ [Invocation id VUndefined
                             [AVal VNull; AVal (VObj op); AVal (VObj r)]])).
Proof.
  intros w callback w1 w2 r op w3.
  apply (delete_success w 2%positive 1%positive callback w2 VNull r).
  - split; vm_compute; reflexivity.
  - repeat split; vm_compute; reflexivity.
  - vm_compute; reflexivity.
  - repeat split; vm_compute; reflexivity.
  - reflexivity.
Defined.

Lemma delete_callback_failure (callback zone err resp : value) (w : world) :
  truthy err = true →
  delete_callback callback zone err resp w =
    (_ ← call callback VUndefined [AVal err; AVal VNull; AVal resp]; mret VUndefined) w.
Proof. intros Herr. unfold delete_callback. by rewrite Herr. Qed.

Lemma setMetadata_callback_failure (callback zone err resp : value) (w : world) :
  truthy err = true →
  setMetadata_callback callback zone err resp w =
    (_ ← call callback VUndefined [AVal err; AVal VNull; AVal resp]; mret VUndefined) w.
Proof. intros Herr. unfold setMetadata_callback. by rewrite Herr. Qed.

Lemma run_override_sends (o : override) (w : world) (a z : loc) (callback : value) :
  autoscaler_handle w a z →
  zone_handle w z →
  override_arg o →
  ∃ (w1 : world) (reqOpts : value),
    run_override o (VObj a) callback w = (Normal VUndefined, w1) ∧
    calls w1 = calls w ∧
    outbox w1 = outbox w ++
      [Request (VObj z) reqOpts
               (AFun (override_closure o (or_else callback util_noop) (VObj z)))].
Proof.
  intros Ha Hz Ho. destruct o as [|metadata]; simpl.
  - destruct (Autoscaler_delete_sends w a z callback Ha Hz)
      as (u & w1 & E & -> & Hc & reqOpts & _ & _ & Hout). eauto.
  - destruct (Autoscaler_setMetadata_sends w a z metadata callback Ha Hz Ho)
      as (u & w1 & E & -> & Hc & body & qs & reqOpts & _ & _ & _ & _ & _ & _ & Hout & _).
    eauto.
Qed.

(** The closure waiting at request [length (outbox w)], in a world whose
    outbox agrees there with the one the override left. *)
Lemma run_override_pending (o : override) (w : world) (a z : loc) (callback : value)
    (w2 : world) :
  autoscaler_handle w a z →
  zone_handle w z →
  override_arg o →
  outbox w2 !! length (outbox w) =
    outbox (run_override o (VObj a) callback w).2 !! length (outbox w) →
  (run_override o (VObj a) callback w).1 = Normal VUndefined ∧
  ∀ err resp,
    deliver (length (outbox w)) err resp w2 =
    resume (override_closure o (or_else callback util_noop) (VObj z))
           [AVal err; AVal resp] w2.
Proof.
  intros Ha Hz Ho Hout.
  destruct (run_override_sends o w a z callback Ha Hz Ho) as (w1 & reqOpts & E & _ & Hout1).
  rewrite E in Hout |- *. simpl in Hout.
  rewrite Hout1, lookup_app_r, Nat.sub_diag in Hout by done. simpl in Hout.
  split; [done|]. intros err resp.
  by rewrite (deliver_pending _ _ _ _ _ Hout).
Qed.

Lemma resume_override_failure (o : override) (callback zone err resp : value) (w : world) :
  truthy err = true →
  resume (override_closure o callback zone) [AVal err; AVal resp] w =
    (_ ← call callback VUndefined [AVal err; AVal VNull; AVal resp]; mret VUndefined) w.
Proof.
  intros Herr. destruct o; simpl.
  - by apply delete_callback_failure.
  - by apply setMetadata_callback_failure.
Qed.

Lemma resume_override_success (o : override) (callback : value) (z r : loc)
    (err : value) (w : world) :
  lookup_prop (heap w) z "operation" = VFun FnZoneOperation →
  truthy err = false →
  resume (override_closure o callback (VObj z)) [AVal err; AVal (VObj r)] w =
    (_ ← call callback VUndefined
           [AVal VNull; AVal (VObj (fresh (dom (heap w)))); AVal (VObj r)];
     mret VUndefined)
      (with_operation w (fresh (dom (heap w))) (VObj z)
         (lookup_prop (heap w) r "name") (VObj r)).
Proof.
  intros Hop Herr. destruct o; simpl.
  - by apply delete_callback_success.
  - by apply setMetadata_callback_success.
Qed.

Lemma resume_override_primitive (o : override) (callback : value) (z : loc)
    (err resp : value) (w : world) :
  lookup_prop (heap w) z "operation" = VFun FnZoneOperation →
  truthy err = false →
  primitive resp = true →
  resume (override_closure o callback (VObj z)) [AVal err; AVal resp] w =
    (_ ← call callback VUndefined
           [AVal VNull; AVal (VObj (fresh (dom (heap w)))); AVal resp];
     mret VUndefined)
      (with_operation w (fresh (dom (heap w))) (VObj z) VUndefined resp).
Proof.
  intros Hop Herr Hresp.
  assert (Hname : ∀ w', get resp "name" w' = (Normal VUndefined, w')).
  { intros w'. by destruct resp. }
  destruct o; simpl; unfold delete_callback, setMetadata_callback; rewrite Herr.
  all: unfold mbind at 1, M_bind at 1; simpl; rewrite Hop.
  all: unfold mbind at 1, M_bind at 1; rewrite Hname.
  all: unfold mbind at 1, M_bind at 1; simpl.
  all: unfold mbind at 1, M_bind at 1; simpl.
  all: by rewrite store_prop_insert, operation_props.
Qed.

(** ** Failure *)

(** C3. When the transport completes a delete or a setMetadata with a
    truthy error, the callback is called with [(err, null, resp)]: the
    error and the response as the transport gave them, and [null] for the
    operation.  For a function of the caller the invocation is recorded
    and the store is as it was: no Operation handle is built. *)
Theorem failure_callback (o : override) (w : world) (a z : loc) (callback : value)
    (w2 : world) (err resp : value) :
  autoscaler_handle w a z →
  zone_handle w z →
  override_arg o →
  outbox w2 !! length (outbox w) =
    outbox (run_override o (VObj a) callback w).2 !! length (outbox w) →
  truthy err = true →
  deliver (length (outbox w)) err resp w2 =
    (_ ← call (or_else callback util_noop) VUndefined
           [AVal err; AVal VNull; AVal resp];
     mret VUndefined) w2 ∧
  ∀ id, callback = VFun (FnUser id) →
    deliver (length (outbox w)) err resp w2 =
      (Normal VUndefined,
       World (heap w2) (outbox w2)
             (calls w2 ++ [Invocation id VUndefined
                             [AVal err; AVal VNull; AVal resp]])).
Proof.
  intros Ha Hz Ho Hout Herr.
  destruct (run_override_pending o w a z callback w2 Ha Hz Ho Hout) as [_ Hrun].
  assert (E : deliver (length (outbox w)) err resp w2 =
    (_ ← call (or_else callback util_noop) VUndefined
           [AVal err; AVal VNull; AVal resp];
     mret VUndefined) w2).
  { rewrite Hrun. by apply resume_override_failure. }
  split; [exact E|]. intros id ->. rewrite E. reflexivity.
Qed.

Lemma failure_callback_witness :
  let w := handle_world in
  let callback := VFun (FnUser 7) in
  let o := SetMetadata VUndefined in
  let w1 := (run_override o (VObj 2%positive) callback w).2 in
  let w2 := with_response w1 {[ "code" := VNum 500 ]} in
  let err := VObj (fresh (dom (heap w1))) in
  deliver (length (outbox w)) err VUndefined w2 =
    (_ ← call (or_else callback util_noop) VUndefined
           [AVal err; AVal VNull; AVal VUndefined];
     mret VUndefined) w2 ∧
  ∀ id, callback = VFun (FnUser id) →
    deliver (length (outbox w)) err VUndefined w2 =
      (Normal VUndefined,
       World (heap w2) (outbox w2)
             (calls w2 ++ [Invocation id VUndefined
                             [AVal err; AVal VNull; AVal VUndefined]])).
Proof.
  intros w callback o w1 w2 err.
  apply (failure_callback o w 2%positive 1%positive callback w2 err VUndefined).
  - split; vm_compute; reflexivity.
  - repeat split; vm_compute; reflexivity.
  - right; reflexivity.
  - vm_compute; reflexivity.
  - reflexivity.
Defined.

(** ** setMetadata wraps its response as delete does *)

(** C4. The function expression of setMetadata and that of delete are
    the same function of the callback, the zone and the outcome; on a
    success response [r] both build the Operation handle
    [zone.operation(r.name)], give it [r] as metadata and call the
    callback with [(null, operation, r)]. *)
Theorem setMetadata_wraps_as_delete (callback : value) (z r : loc) (err : value)
    (w : world) :
  lookup_prop (heap w) z "operation" = VFun FnZoneOperation →
  truthy err = false →
  let op := fresh (dom (heap w)) in
  let w' := World (<[op := Object COperation
                       {[ "parent" := VObj z;
                          "id" := lookup_prop (heap w) r "name";
                          "metadata" := VObj r ]}]> (heap w))
                  (outbox w) (calls w) in
  let wrapped :=
    (_ ← call callback VUndefined [AVal VNull; AVal (VObj op); AVal (VObj r)];
     mret VUndefined) w' in
  (∀ zone0 err0 resp0 w0,
     setMetadata_callback callback zone0 err0 resp0 w0 =
     delete_callback callback zone0 err0 resp0 w0) ∧
  resume (KDelete callback (VObj z)) [AVal err; AVal (VObj r)] w = wrapped ∧
  resume (KSetMetadata callback (VObj z)) [AVal err; AVal (VObj r)] w = wrapped.
Proof.
  intros Hop Herr op w' wrapped. split; [reflexivity|]. split.
  - by apply delete_callback_success.
  - by apply setMetadata_callback_success.
Qed.

Lemma setMetadata_wraps_as_delete_witness :
  let callback := VFun (FnUser 7) in
  let w := with_response handle_world {[ "name" := VStr "operation-1" ]} in
  let r := fresh (dom (heap handle_world)) in
  let op := fresh (dom (heap w)) in
  let w' := World (<[op := Object COperation
                       {[ "parent" := VObj 1%positive;
                          "id" := lookup_prop (heap w) r "name";
                          "metadata" := VObj r ]}]> (heap w))
                  (outbox w) (calls w) in
  let wrapped :=
    (_ ← call callback VUndefined [AVal VNull; AVal (VObj op); AVal (VObj r)];
     mret VUndefined) w' in
  (∀ zone0 err0 resp0 w0,
     setMetadata_callback callback zone0 err0 resp0 w0 =
     delete_callback callback zone0 err0 resp0 w0) ∧
  resume (KDelete callback (VObj 1%positive)) [AVal VNull; AVal (VObj r)] w = wrapped ∧
  resume (KSetMetadata callback (VObj 1%positive)) [AVal VNull; AVal (VObj r)] w = wrapped.
Proof.
  intros callback w r op w' wrapped.
  apply (setMetadata_wraps_as_delete callback 1%positive r VNull w).
  - vm_compute; reflexivity.
  - reflexivity.
Defined.

(** ** No callback *)

(** C5 as it is written fails: with the callback left out, a success
    that carries no response ([undefined] for response, the error
    [null]) makes the completion throw a TypeError, at [resp.name].  Here
    a delete on the handle, object 2 of [handle_world]. *)
Lemma omitted_callback_without_response_throws :
  ¬ (∀ (o : override) (w : world) (a z : loc) (callback : value)
       (w2 : world) (err resp : value),
       autoscaler_handle w a z →
       zone_handle w z →
       override_arg o →
       truthy callback = false →
       outbox w2 !! length (outbox w) =
         outbox (run_override o (VObj a) callback w).2 !! length (outbox w) →
       zone_handle w2 z →
       (deliver (length (outbox w)) err resp w2).1 = Normal VUndefined).
Proof.
  intros H.
  specialize (H Delete handle_world 2%positive 1%positive VUndefined
                (run_override Delete (VObj 2%positive) VUndefined handle_world).2
                VNull VUndefined).
  assert (Hthrow : (deliver (length (outbox handle_world)) VNull VUndefined
                      (run_override Delete (VObj 2%positive) VUndefined handle_world).2).1
                   = Throw TypeError) by (vm_compute; reflexivity).
  rewrite H in Hthrow.
  - discriminate Hthrow.
  - split; vm_compute; reflexivity.
  - repeat split; vm_compute; reflexivity.
  - exact I.
  - reflexivity.
  - reflexivity.
  - repeat split; vm_compute; reflexivity.
Qed.

(** C5. A delete or a setMetadata returns normally whatever callback it
    is given, and its outcome only comes later, through the callback.
    With the callback left out, [util.noop] stands in for it: when the
    transport completes the request, with a failure (any response) or
    with a success that carries a response (an object or a primitive,
    not [undefined] or [null]; the zone still a zone handle), the
    completion returns normally too and calls no function of the
    caller. *)
Theorem omitted_callback (o : override) (w : world) (a z : loc) (callback : value)
    (w2 : world) (err resp : value) :
  autoscaler_handle w a z →
  zone_handle w z →
  override_arg o →
  truthy callback = false →
  outbox w2 !! length (outbox w) =
    outbox (run_override o (VObj a) callback w).2 !! length (outbox w) →
  truthy err = true ∨
    (truthy err = false ∧ nullish resp = false ∧ callable resp = false ∧
     zone_handle w2 z) →
  or_else callback util_noop = util_noop ∧
  (∀ cb, (run_override o (VObj a) cb w).1 = Normal VUndefined) ∧
  (deliver (length (outbox w)) err resp w2).1 = Normal VUndefined ∧
  calls (deliver (length (outbox w)) err resp w2).2 = calls w2.
Proof.
  intros Ha Hz Ho Hcb Hout Hres.
  assert (Hnoop : or_else callback util_noop = util_noop).
  { unfold or_else. by rewrite Hcb. }
  destruct (run_override_pending o w a z callback w2 Ha Hz Ho Hout) as [_ Hrun].
  split; [done|]. split.
  { intros cb.
    destruct (run_override_sends o w a z cb Ha Hz Ho) as (w1 & reqOpts & E & _).
    by rewrite E. }
  rewrite Hrun, Hnoop.
  destruct Hres as [Herr|(Herr & Hnull & Hcall & Hz2)].
  - rewrite resume_override_failure by done. by rewrite call_noop.
  - destruct resp as [| |b|n|s|r|f|f t]; try discriminate Hnull;
      try discriminate Hcall.
    + rewrite resume_override_primitive by (done || apply Hz2). by rewrite call_noop.
    + rewrite resume_override_primitive by (done || apply Hz2). by rewrite call_noop.
    + rewrite resume_override_primitive by (done || apply Hz2). by rewrite call_noop.
    + rewrite resume_override_success by (done || apply Hz2). by rewrite call_noop.
Qed.

Lemma omitted_callback_witness :
  let w := handle_world in
  let o := SetMetadata VUndefined in
  let w1 := (run_override o (VObj 2%positive) VUndefined w).2 in
  let w2 := with_response w1 {[ "name" := VStr "operation-1" ]} in
  let resp := VObj (fresh (dom (heap w1))) in
  or_else VUndefined util_noop = util_noop ∧
  (∀ cb, (run_override o (VObj 2%positive) cb w).1 = Normal VUndefined) ∧
  (deliver (length (outbox w)) VNull resp w2).1 = Normal VUndefined ∧
  calls (deliver (length (outbox w)) VNull resp w2).2 = calls w2.
Proof.
  intros w o w1 w2 resp.
  apply (omitted_callback o w 2%positive 1%positive VUndefined w2 VNull resp).
  - split; vm_compute; reflexivity.
  - repeat split; vm_compute; reflexivity.
  - right; reflexivity.
  - reflexivity.
  - vm_compute; reflexivity.
  - right. split; [reflexivity|]. split; [reflexivity|]. split; [reflexivity|].
    repeat split; vm_compute; reflexivity.
Defined.

(** ** A response without a name *)

(** Where the transport reports success and hands over no response at
    all, the completion throws before it reaches the callback: [resp.name]
    is read of [undefined].  The statements about success take the
    response to be an object, as the specification assumes of it. *)
Example completion_without_response (callback : value) (z : loc) (w : world) :
  delete_callback callback (VObj z) VNull VUndefined w = (Throw TypeError, w).
Proof. reflexivity. Qed.

(** C6. A success response is not checked for its [name]: when the
    response object [r] of a delete or a setMetadata has no such
    property, the completion still builds an Operation handle, with
    [undefined] as identifier, and calls the callback with a [null]
    error. *)
Theorem response_without_name (o : override) (w : world) (a z : loc) (callback : value)
    (w2 : world) (err : value) (r : loc) :
  autoscaler_handle w a z →
  zone_handle w z →
  override_arg o →
  outbox w2 !! length (outbox w) =
    outbox (run_override o (VObj a) callback w).2 !! length (outbox w) →
  zone_handle w2 z →
  truthy err = false →
  props (object_at (heap w2) r) !! "name" = None →
  let op := fresh (dom (heap w2)) in
  let w3 := World (<[op := Object COperation
                       {[ "parent" := VObj z;
                          "id" := VUndefined;
                          "metadata" := VObj r ]}]> (heap w2))
                  (outbox w2) (calls w2) in
  deliver (length (outbox w)) err (VObj r) w2 =
    (_ ← call (or_else callback util_noop) VUndefined
           [AVal VNull; AVal (VObj op); AVal (VObj r)];
     mret VUndefined) w3 ∧
  ∀ id, callback = VFun (FnUser id) →
    deliver (length (outbox w)) err (VObj r) w2 =
      (Normal VUndefined,
       World (heap w3) (outbox w2)
             (calls w2 ++ [Invocation id VUndefined
                             [AVal VNull; AVal (VObj op); AVal (VObj r)]])).
Proof.
  intros Ha Hz Ho Hout Hz2 Herr Hname op w3.
  destruct (run_override_pending o w a z callback w2 Ha Hz Ho Hout) as [_ Hrun].
  assert (Hundef : lookup_prop (heap w2) r "name" = VUndefined).
  { unfold lookup_prop. rewrite Hname. by destruct (class (object_at (heap w2) r)). }
  assert (E : deliver (length (outbox w)) err (VObj r) w2 =
    (_ ← call (or_else callback util_noop) VUndefined
           [AVal VNull; AVal (VObj op); AVal (VObj r)];
     mret VUndefined) w3).
  { rewrite Hrun, resume_override_success by (done || apply Hz2).
    unfold with_operation. by rewrite Hundef. }
  split; [exact E|]. intros id ->. rewrite E. reflexivity.
Qed.

Lemma response_without_name_witness :
  let w := handle_world in
  let callback := VFun (FnUser 7) in
  let o := Delete in
  let w1 := (run_override o (VObj 2%positive) callback w).2 in
  let w2 := with_response w1 {[ "status" := VStr "PENDING" ]} in
  let r := fresh (dom (heap w1)) in
  let op := fresh (dom (heap w2)) in
  let w3 := World (<[op := Object COperation
                       {[ "parent" := VObj 1%positive;
                          "id" := VUndefined;
                          "metadata" := VObj r ]}]> (heap w2))
                  (outbox w2) (calls w2) in
  deliver (length (outbox w)) VNull (VObj r) w2 =
    (_ ← call (or_else callback util_noop) VUndefined
           [AVal VNull; AVal (VObj op); AVal (VObj r)];
     mret VUndefined) w3 ∧
  ∀ id, callback = VFun (FnUser id) →
    deliver (length (outbox w)) VNull (VObj r) w2 =
      (Normal VUndefined,
       World (heap w3) (outbox w2)
             (calls w2 ++ [Invocation id VUndefined
                             [AVal VNull; AVal (VObj op); AVal (VObj r)]])).
Proof.
  intros w callback o w1 w2 r op w3.
  apply (response_without_name o w 2%positive 1%positive callback w2 VNull r).
  - split; vm_compute; reflexivity.
  - repeat split; vm_compute; reflexivity.
  - exact I.
  - vm_compute; reflexivity.
  - repeat split; vm_compute; reflexivity.
  - reflexivity.
  - vm_compute; reflexivity.
Defined.

(** ** setMetadata: the request *)

(** C2. A setMetadata on a handle of a zone, given a metadata object or
    none, hands the zone's [request] one request: method PATCH, path
    [/autoscalers], query [autoscaler] set to the handle's name, and as
    JSON body the metadata object itself, or a new object when there is
    none.  The body has the properties the metadata had (none, for a new
    object) with [name] set to the handle's name and [zone] set to the
    name of the zone, over whatever was there. *)
Theorem setMetadata_request (w : world) (a z : loc) (metadata callback : value) :
  autoscaler_handle w a z →
  zone_handle w z →
  metadata_arg metadata →
  let w1 := (Autoscaler_setMetadata (VObj a) metadata callback w).2 in
  let name := lookup_prop (heap w) a "name" in
  let given := match metadata with
               | VObj m => props (object_at (heap w) m)
               | _ => ∅
               end in
  (Autoscaler_setMetadata (VObj a) metadata callback w).1 = Normal VUndefined ∧
  ∃ reqOpts qs body : loc,
    outbox w1 = outbox w ++
      [Request (VObj z) (VObj reqOpts)
               (AFun (KSetMetadata (or_else callback util_noop) (VObj z)))] ∧
    lookup_prop (heap w1) reqOpts "method" = VStr "PATCH" ∧
    lookup_prop (heap w1) reqOpts "uri" = VStr "/autoscalers" ∧
    lookup_prop (heap w1) reqOpts "qs" = VObj qs ∧
    props (object_at (heap w1) qs) = {[ "autoscaler" := name ]} ∧
    lookup_prop (heap w1) reqOpts "json" = VObj body ∧
    match metadata with
    | VObj m => body = m
    | _ => heap w !! body = None
    end ∧
    props (object_at (heap w1) body) =
      <["zone" := lookup_prop (heap w1) z "name"]> (<["name" := name]> given) ∧
    lookup_prop (heap w1) a "name" = name ∧
    (body ≠ z → lookup_prop (heap w1) z "name" = lookup_prop (heap w) z "name").
Proof.
  intros Ha Hz Hmd w1 name given.
  destruct (Autoscaler_setMetadata_sends w a z metadata callback Ha Hz Hmd)
    as (u & w1' & E & -> & Hc & body & qs & reqOpts & Hbody & Hqs & Hreq
        & Hbq & Hbr & Hqr & Hout & Hro & Hq & Hprops & Hclass & Hframe).
  subst w1. rewrite E. simpl.
  split; [done|].
  exists reqOpts, qs, body.
  assert (Hlk : ∀ l ps key v, heap w1' !! l = Some (Object CObject ps) →
                  ps !! key = Some v → lookup_prop (heap w1') l key = v).
  { intros l ps key v Hl Hk. unfold lookup_prop, object_at. rewrite Hl. simpl.
    by rewrite Hk. }
  assert (Hgiven : props (object_at (heap w) body) = given).
  { subst given. destruct Hbody as [->|[Hf Hb]]; [done|].
    unfold object_at. rewrite Hb. by destruct metadata. }
  split; [done|].
  split; [by apply (Hlk _ _ _ _ Hro)|].
  split; [by apply (Hlk _ _ _ _ Hro)|].
  split; [by apply (Hlk _ _ _ _ Hro)|].
  split; [unfold object_at; by rewrite Hq|].
  split; [by apply (Hlk _ _ _ _ Hro)|].
  split.
  { destruct Hbody as [->|[Hf Hb]]; [done|]. by destruct metadata. }
  split; [by rewrite Hprops, Hgiven|].
  split.
  - destruct (decide (body = a)) as [->|Hne].
    + unfold lookup_prop at 1. rewrite Hprops.
      rewrite lookup_insert_ne by done. by rewrite lookup_insert_eq.
    + unfold lookup_prop, object_at.
      rewrite Hframe; [done|done|by apply (autoscaler_handle_allocated w a z)].
  - intros Hne. unfold lookup_prop, object_at.
    rewrite Hframe; [done|done|by apply zone_handle_allocated].
Qed.

Lemma setMetadata_request_witness :
  let w := with_response handle_world
             {[ "description" := VStr "New description"; "name" := VStr "other" ]} in
  let metadata := VObj (fresh (dom (heap handle_world))) in
  let callback := VFun (FnUser 7) in
  let w1 := (Autoscaler_setMetadata (VObj 2%positive) metadata callback w).2 in
  let name := lookup_prop (heap w) 2%positive "name" in
  let given := match metadata with
               | VObj m => props (object_at (heap w) m)
               | _ => ∅
               end in
  (Autoscaler_setMetadata (VObj 2%positive) metadata callback w).1 = Normal VUndefined ∧
  ∃ reqOpts qs body : loc,
    outbox w1 = outbox w ++
      [Request (VObj 1%positive) (VObj reqOpts)
               (AFun (KSetMetadata (or_else callback util_noop) (VObj 1%positive)))] ∧
    lookup_prop (heap w1) reqOpts "method" = VStr "PATCH" ∧
    lookup_prop (heap w1) reqOpts "uri" = VStr "/autoscalers" ∧
    lookup_prop (heap w1) reqOpts "qs" = VObj qs ∧
    props (object_at (heap w1) qs) = {[ "autoscaler" := name ]} ∧
    lookup_prop (heap w1) reqOpts "json" = VObj body ∧
    match metadata with
    | VObj m => body = m
    | _ => heap w !! body = None
    end ∧
    props (object_at (heap w1) body) =
      <["zone" := lookup_prop (heap w1) 1%positive "name"]> (<["name" := name]> given) ∧
    lookup_prop (heap w1) 2%positive "name" = name ∧
    (body ≠ 1%positive →
     lookup_prop (heap w1) 1%positive "name" = lookup_prop (heap w) 1%positive "name").
Proof.
  intros w metadata callback w1 name given.
  apply (setMetadata_request w 2%positive 1%positive metadata callback).
  - split; vm_compute; reflexivity.
  - repeat split; vm_compute; reflexivity.
  - left. by eexists.
Defined.

(** ** setMetadata: the caller's object *)

(** C9. setMetadata writes onto the object it is given: the body of the
    request is that very object, not a copy; after the call it has
    [name] and [zone] set, every other property as before, and its class
    as before; and every other object that existed is as it was. *)
Theorem setMetadata_in_place (w : world) (a z m : loc) (callback : value) :
  autoscaler_handle w a z →
  zone_handle w z →
  let w1 := (Autoscaler_setMetadata (VObj a) (VObj m) callback w).2 in
  (∃ reqOpts k,
     outbox w1 = outbox w ++ [Request (VObj z) (VObj reqOpts) k] ∧
     heap w !! reqOpts = None ∧
     lookup_prop (heap w1) reqOpts "json" = VObj m) ∧
  props (object_at (heap w1) m) =
    <["zone" := lookup_prop (heap w1) z "name"]>
      (<["name" := lookup_prop (heap w) a "name"]> (props (object_at (heap w) m))) ∧
  (∀ key, key ≠ "name" → key ≠ "zone" →
     props (object_at (heap w1) m) !! key = props (object_at (heap w) m) !! key) ∧
  class (object_at (heap w1) m) = class (object_at (heap w) m) ∧
  (∀ l, l ≠ m → is_Some (heap w !! l) → heap w1 !! l = heap w !! l).
Proof.
  intros Ha Hz w1.
  destruct (Autoscaler_setMetadata_sends w a z (VObj m) callback Ha Hz)
    as (u & w1' & E & -> & Hc & body & qs & reqOpts & Hbody & Hqs & Hreq
        & Hbq & Hbr & Hqr & Hout & Hro & Hq & Hprops & Hclass & Hframe).
  { left. by eexists. }
  subst w1. rewrite E. simpl.
  destruct Hbody as [[= <-]|[[=] _]].
  split.
  { exists reqOpts, (AFun (KSetMetadata (or_else callback util_noop) (VObj z))).
    split; [done|]. split; [done|].
    unfold lookup_prop, object_at. by rewrite Hro. }
  split; [done|].
  split.
  { intros key Hn Hzn. rewrite Hprops. by rewrite !lookup_insert_ne. }
  done.
Qed.

Lemma setMetadata_in_place_witness :
  let w := with_response handle_world
             {[ "description" := VStr "New description"; "name" := VStr "other" ]} in
  let m := fresh (dom (heap handle_world)) in
  let callback := VFun (FnUser 7) in
  let w1 := (Autoscaler_setMetadata (VObj 2%positive) (VObj m) callback w).2 in
  (∃ reqOpts k,
     outbox w1 = outbox w ++ [Request (VObj 1%positive) (VObj reqOpts) k] ∧
     heap w !! reqOpts = None ∧
     lookup_prop (heap w1) reqOpts "json" = VObj m) ∧
  props (object_at (heap w1) m) =
    <["zone" := lookup_prop (heap w1) 1%positive "name"]>
      (<["name" := lookup_prop (heap w) 2%positive "name"]> (props (object_at (heap w) m))) ∧
  (∀ key, key ≠ "name" → key ≠ "zone" →
     props (object_at (heap w1) m) !! key = props (object_at (heap w) m) !! key) ∧
  class (object_at (heap w1) m) = class (object_at (heap w) m) ∧
  (∀ l, l ≠ m → is_Some (heap w !! l) → heap w1 !! l = heap w !! l).
Proof.
  intros w m callback w1.
  apply (setMetadata_in_place w 2%positive 1%positive m callback).
  - split; vm_compute; reflexivity.
  - repeat split; vm_compute; reflexivity.
Defined.

(** ** What an object keeps *)

Section kept.
(** An object [a], the properties [K] of it that are watched, and the
    state [o] it was in. *)
Variables (a : loc) (K : string → Prop) (o : object).

Local Abbreviation kept := (kept a K o).
Local Abbreviation keeps := (keeps a K o).
Local Abbreviation other := (other a).

Lemma keeps_weaken {A} (m : M A) (Q Q' : A → Prop) :
  keeps m Q → (∀ r, Q r → Q' r) → keeps m Q'.
Proof. intros Hm HQ w Hw. destruct (Hm w Hw) as [? ?]. split; auto. Qed.

Lemma keeps_ret {A} (x : A) (Q : A → Prop) : Q x → keeps (mret x) Q.
Proof. intros HQ w Hw. split; [done|]. by intros r [= <-]. Qed.

Lemma keeps_throw {A} e (Q : A → Prop) : keeps (throw e) Q.
Proof. intros w Hw. split; [done|]. by intros r [=]. Qed.

Lemma keeps_bind {A B} (m : M A) (f : A → M B) (Q : A → Prop) (Q' : B → Prop) :
  keeps m Q → (∀ x, Q x → keeps (f x) Q') → keeps (m ≫= f) Q'.
Proof.
  intros Hm Hf w Hw. destruct (Hm w Hw) as [Hw' HQ].
  unfold mbind, M_bind. destruct (m w) as [[x|e] w']; simpl in *.
  - exact (Hf x (HQ x eq_refl) w' Hw').
  - split; [done|]. by intros r [=].
Qed.

Lemma keeps_get v key : keeps (get v key) (λ _, True).
Proof. intros w Hw. by destruct v. Qed.

Lemma kept_alloc w l c ps :
  heap w !! l = None →
  kept w → kept (World (<[l := Object c ps]> (heap w)) (outbox w) (calls w)).
Proof.
  intros Hl (o' & Ho' & Hc & Hk). exists o'. split; [|done]. simpl.
  rewrite lookup_insert_ne; [done|congruence].
Qed.

Lemma keeps_alloc c ps : keeps (alloc c ps) other.
Proof.
  intros w Hw. split.
  - by apply kept_alloc; [apply fresh_unallocated|].
  - intros r [= <-] [= E]. destruct Hw as (o' & Ho' & _).
    pose proof (fresh_unallocated (heap w)) as Hf. rewrite E in Hf. congruence.
Qed.

Lemma keeps_new_object ps : keeps (new_object ps) other.
Proof. apply keeps_alloc. Qed.

Lemma keeps_copy_without v key : keeps (copy_without v key) other.
Proof.
  intros w Hw. unfold copy_without.
  destruct v; try apply (keeps_new_object _ w Hw).
Qed.

Lemma keeps_set v key x : other v ∨ ¬ K key → keeps (set v key x) (λ _, True).
Proof.
  intros Hv w Hw. split; [|done].
  destruct v as [| | | | |l| |]; try done. simpl.
  destruct Hw as (o' & Ho' & Hc & Hk). unfold kept, store_prop, object_at. simpl.
  destruct (decide (l = a)) as [->|Hl].
  - rewrite Ho'. simpl. eexists. split; [apply lookup_insert_eq|]. simpl.
    split; [done|]. intros key' Hkey'.
    destruct Hv as [Hv|Hv]; [by destruct Hv|].
    rewrite lookup_insert_ne; [by apply Hk|]. by intros ->.
  - exists o'. by rewrite lookup_insert_ne.
Qed.

Lemma keeps_send r : keeps (send r) (λ _, True).
Proof. by intros w Hw. Qed.

Lemma keeps_record_call i : keeps (record_call i) (λ _, True).
Proof. by intros w Hw. Qed.

Lemma keeps_is_not_found err : keeps (is_not_found err) (λ _, True).
Proof.
  unfold is_not_found. eapply keeps_bind; [apply keeps_get|].
  intros code _. by apply keeps_ret.
Qed.

Lemma other_undefined : other VUndefined.
Proof. done. Qed.
End kept.

Create HintDb keeps.
#[local] Hint Resolve keeps_ret keeps_throw keeps_get keeps_alloc keeps_new_object
  keeps_copy_without keeps_send keeps_record_call keeps_is_not_found
  other_undefined : keeps.
#[local] Hint Extern 1 (keeps _ _ _ (set _ _ _) _) =>
  apply keeps_set; solve [auto] : keeps.

(** Works through a sequence: each head by the lemmas of [keeps], the
    rest with what the head is known to return. *)
Ltac keeps_seq :=
  repeat lazymatch goal with
  | |- keeps _ _ _ (mbind _ _) _ =>
      eapply keeps_bind; [solve [eauto with keeps]|intros ? ?]
  | |- keeps _ _ _ (if ?b then _ else _) _ => destruct b
  | |- keeps _ _ _ (match ?v with _ => _ end) _ => destruct v
  end;
  try solve [eauto with keeps
            | eapply keeps_weaken; [solve [eauto with keeps]|done] ].

Section kept_by_the_handle.
Variables (a : loc) (K : string → Prop) (o : object).

Lemma keeps_run_func f this args : keeps a K o (run_func f this args) (other a).
Proof.
  destruct f; simpl; unfold Zone_operation, Zone_request, Zone_createAutoscaler;
    keeps_seq.
Qed.

Lemma keeps_call callee this args : keeps a K o (call callee this args) (other a).
Proof.
  destruct callee; simpl; try apply keeps_throw; apply keeps_run_func.
Qed.
Hint Resolve keeps_call : keeps.

Lemma keeps_bind_this v this : keeps a K o (bind v this) (λ _, True).
Proof. destruct v; simpl; keeps_seq. Qed.
Hint Resolve keeps_bind_this : keeps.

Lemma keeps_ServiceObject this config :
  other a this → keeps a K o (ServiceObject this config) (λ _, True).
Proof. intros Hthis. unfold ServiceObject. keeps_seq. Qed.

Lemma keeps_ServiceObject_request this reqOpts callback :
  keeps a K o (ServiceObject_request this reqOpts callback) (λ _, True).
Proof. unfold ServiceObject_request. keeps_seq. Qed.
Hint Resolve keeps_ServiceObject_request : keeps.

Lemma keeps_ServiceObject_delete this callback :
  keeps a K o (ServiceObject_delete this callback) (λ _, True).
Proof. unfold ServiceObject_delete. keeps_seq. Qed.
Hint Resolve keeps_ServiceObject_delete : keeps.

Lemma keeps_ServiceObject_create this config callback :
  keeps a K o (ServiceObject_create this config callback) (λ _, True).
Proof. unfold ServiceObject_create. keeps_seq. Qed.
Hint Resolve keeps_ServiceObject_create : keeps.

Lemma keeps_ServiceObject_getMetadata this callback :
  keeps a K o (ServiceObject_getMetadata this callback) (λ _, True).
Proof. unfold ServiceObject_getMetadata. keeps_seq. Qed.
Hint Resolve keeps_ServiceObject_getMetadata : keeps.

Lemma keeps_ServiceObject_get this options callback :
  keeps a K o (ServiceObject_get this options callback) (λ _, True).
Proof. unfold ServiceObject_get. keeps_seq. Qed.
Hint Resolve keeps_ServiceObject_get : keeps.

Lemma keeps_ServiceObject_exists this callback :
  keeps a K o (ServiceObject_exists this callback) (λ _, True).
Proof. unfold ServiceObject_exists. keeps_seq. Qed.

(** The completions of the two overrides write to the Operation handle
    they have just been given, and to nothing else. *)
Lemma keeps_delete_callback callback zone err resp :
  keeps a K o (delete_callback callback zone err resp) (λ _, True).
Proof. unfold delete_callback. keeps_seq. Qed.

Lemma keeps_setMetadata_callback callback zone err resp :
  keeps a K o (setMetadata_callback callback zone err resp) (λ _, True).
Proof. unfold setMetadata_callback. keeps_seq. Qed.

Lemma keeps_Autoscaler_delete this callback :
  keeps a K o (Autoscaler_delete this callback) (λ _, True).
Proof. unfold Autoscaler_delete. keeps_seq. Qed.

(** setMetadata writes [name] and [zone] to the metadata object. *)
Lemma keeps_Autoscaler_setMetadata this metadata callback :
  other a metadata ∨ (¬ K "name" ∧ ¬ K "zone") →
  keeps a K o (Autoscaler_setMetadata this metadata callback) (λ _, True).
Proof.
  intros Hmd. unfold Autoscaler_setMetadata.
  eapply keeps_bind; [apply keeps_get|intros zone _].
  eapply (keeps_bind _ _ _ _ _ (λ v, other a v ∨ (¬ K "name" ∧ ¬ K "zone"))).
  { destruct (truthy metadata).
    - by apply keeps_ret.
    - eapply keeps_weaken; [apply keeps_new_object|]. by left. }
  intros metadata' Hmd'.
  assert (other a metadata' ∨ ¬ K "name") by tauto.
  assert (other a metadata' ∨ ¬ K "zone") by tauto.
  keeps_seq.
Qed.

Lemma keeps_Autoscaler this zone name :
  other a this → keeps a K o (Autoscaler this zone name) (λ _, True).
Proof.
  intros Hthis. unfold Autoscaler.
  pose proof (keeps_ServiceObject this) as HSO.
  keeps_seq.
Qed.

Lemma keeps_new_Autoscaler zone name :
  keeps a K o (new_Autoscaler zone name) (λ _, True).
Proof.
  unfold new_Autoscaler.
  eapply keeps_bind; [apply keeps_alloc|intros this Hthis].
  eapply keeps_bind; [by apply keeps_Autoscaler|intros _ _].
  by apply keeps_ret.
Qed.
End kept_by_the_handle.

Section kept_by_completions.
Variables (a : loc) (K : string → Prop) (o : object).
Hypothesis metadata_free : ¬ K "metadata".

Lemma keeps_getMetadata_callback callback self err resp :
  (∀ args, keeps a K o (callback args) (λ _, True)) →
  keeps a K o (getMetadata_callback callback self err resp) (λ _, True).
Proof. intros Hcb. unfold getMetadata_callback. keeps_seq. Qed.

Lemma keeps_exists_callback callback err :
  (∀ args, keeps a K o (callback args) (λ _, True)) →
  keeps a K o (exists_callback callback err) (λ _, True).
Proof. intros Hcb. unfold exists_callback. keeps_seq. Qed.

Lemma keeps_getCreated_callback self options callback apply_callback err resp :
  (∀ args, keeps a K o (apply_callback args) (λ _, True)) →
  keeps a K o (getCreated_callback self options callback apply_callback err resp)
        (λ _, True).
Proof.
  intros Hcb. unfold getCreated_callback.
  pose proof (keeps_ServiceObject_get a K o) as Hget. keeps_seq.
Qed.

Lemma keeps_get_callback self options callback apply_callback err resp :
  (∀ args, keeps a K o (apply_callback args) (λ _, True)) →
  keeps a K o (get_callback self options callback apply_callback err resp) (λ _, True).
Proof.
  intros Hcb. unfold get_callback.
  pose proof (keeps_ServiceObject_create a K o) as Hcreate.
  destruct (truthy err); [|by apply Hcb].
  eapply keeps_bind; [apply keeps_is_not_found|intros missing _].
  eapply keeps_bind.
  { instantiate (1 := λ _, True). destruct (truthy options); keeps_seq. }
  intros autoCreate _. keeps_seq.
Qed.

Lemma keeps_resume k : ∀ args, keeps a K o (resume k args) (λ _, True).
Proof.
  induction k using closure_arg_ind
    with (P0 := λ x, ∀ args, keeps a K o (apply_arg x args) (λ _, True));
    intros args; simpl.
  - apply keeps_delete_callback.
  - apply keeps_setMetadata_callback.
  - by apply keeps_getMetadata_callback.
  - by apply keeps_get_callback.
  - by apply keeps_getCreated_callback.
  - by apply keeps_exists_callback.
  - eapply keeps_weaken; [apply keeps_call|done].
  - apply IHk.
Qed.

Lemma keeps_deliver i err resp : keeps a K o (deliver i err resp) (λ _, True).
Proof.
  intros w Hw. unfold deliver. destruct (outbox w !! i) as [r|]; [|done].
  destruct (req_callback r) as [v|k]; simpl.
  - eapply keeps_weaken; [apply keeps_call|done|done].
  - by apply keeps_resume.
Qed.

Lemma keeps_perform op :
  writes_onto a op = false →
  keeps a K o (perform op) (λ _, True).
Proof.
  intros Hop. destruct op as [| ov this cb | | | | |]; simpl.
  - apply keeps_new_Autoscaler.
  - destruct ov as [|metadata]; simpl.
    + apply keeps_Autoscaler_delete.
    + apply keeps_Autoscaler_setMetadata.
      left. intros ->. simpl in Hop. by rewrite bool_decide_eq_true_2 in Hop.
  - apply keeps_ServiceObject_create.
  - apply keeps_ServiceObject_exists.
  - apply keeps_ServiceObject_get.
  - apply keeps_ServiceObject_getMetadata.
  - apply keeps_deliver.
Qed.

Lemma kept_perform_all ops w :
  forallb (λ op, negb (writes_onto a op)) ops = true →
  kept a K o w → kept a K o (perform_all ops w).
Proof.
  revert w. induction ops as [|op ops IH]; intros w Hops Hw; [done|].
  simpl in Hops. apply andb_true_iff in Hops as [Hop Hops].
  apply negb_true_iff in Hop.
  simpl. apply IH; [done|]. by apply keeps_perform.
Qed.
End kept_by_completions.

Lemma kept_now (a : loc) (K : string → Prop) (o : object) (w : world) :
  heap w !! a = Some o → kept a K o w.
Proof. intros Ho. by exists o. Qed.

(** ** The handle's own metadata *)

(** C10. A delete or a setMetadata on a handle [a], whatever its
    arguments, leaves the [metadata] property of [a] as it was; and so
    does the function expression it hands to the transport, whatever the
    outcome [(err, resp)] it is run with and in whatever world [w2] where
    the handle is: the response becomes the metadata of the Operation
    handle, not of [a]. *)
Theorem overrides_keep_handle_metadata (o : override) (w : world) (a : loc)
    (callback : value) (w2 : world) (cb zone err resp : value) :
  is_Some (heap w !! a) →
  is_Some (heap w2 !! a) →
  props (object_at (heap (run_override o (VObj a) callback w).2) a) !! "metadata" =
    props (object_at (heap w) a) !! "metadata" ∧
  props (object_at
           (heap (resume (override_closure o cb zone) [AVal err; AVal resp] w2).2) a)
    !! "metadata" =
    props (object_at (heap w2) a) !! "metadata".
Proof.
  intros [oa Ha] [oa2 Ha2].
  set (K := λ key : string, key = "metadata").
  assert (Hkept : ∀ oa w w', heap w !! a = Some oa → kept a K oa w' →
            props (object_at (heap w') a) !! "metadata" =
            props (object_at (heap w) a) !! "metadata").
  { intros oa' w0 w' Hw0 (o' & Ho' & _ & Hk). unfold object_at.
    rewrite Ho', Hw0. simpl. by apply Hk. }
  split.
  - apply (Hkept oa); [done|].
    assert (Hrun : keeps a K oa (run_override o (VObj a) callback) (λ _, True)).
    { destruct o as [|metadata]; simpl.
      - apply keeps_Autoscaler_delete.
      - apply keeps_Autoscaler_setMetadata. right. by split. }
    by apply Hrun, kept_now.
  - apply (Hkept oa2); [done|].
    assert (Hrun : keeps a K oa2
              (resume (override_closure o cb zone) [AVal err; AVal resp]) (λ _, True)).
    { destruct o as [|metadata]; simpl.
      - apply keeps_delete_callback.
      - apply keeps_setMetadata_callback. }
    by apply Hrun, kept_now.
Qed.

Lemma overrides_keep_handle_metadata_witness :
  let a := 2%positive in
  let o := SetMetadata (VObj a) in
  let w := World (store_prop (heap handle_world) a "metadata" (VStr "stored")) [] [] in
  let w2 := with_response w {[ "name" := VStr "operation-1" ]} in
  let resp := VObj (fresh (dom (heap w))) in
  let cb := VFun (FnUser 7) in
  props (object_at (heap (run_override o (VObj a) cb w).2) a) !! "metadata" =
    props (object_at (heap w) a) !! "metadata" ∧
  props (object_at
           (heap (resume (override_closure o cb (VObj 1%positive))
                         [AVal VNull; AVal resp] w2).2) a)
    !! "metadata" =
    props (object_at (heap w2) a) !! "metadata".
Proof.
  intros a o w w2 resp cb.
  apply (overrides_keep_handle_metadata o w a cb w2 cb (VObj 1%positive) VNull resp).
  - vm_compute. by eexists.
  - vm_compute. by eexists.
Defined.

(** ** The handle's name and zone *)

(** C7, as it is written, fails: a setMetadata that is given the handle
    itself as metadata writes the zone's name over the handle's [zone].
    Here the handle is object 2 of [handle_world]. *)
Lemma setMetadata_reassigns_zone :
  ¬ (∀ (a z : loc) (o : object) (ops : list operation) (w : world),
       autoscaler_handle w a z →
       zone_handle w z →
       heap w !! a = Some o →
       ∃ o', heap (perform_all ops w) !! a = Some o' ∧
             props o' !! "name" = props o !! "name" ∧
             props o' !! "zone" = props o !! "zone").
Proof.
  intros H.
  destruct (H 2%positive 1%positive (object_at (heap handle_world) 2%positive)
              [Override (SetMetadata (VObj 2%positive)) (VObj 2%positive) VUndefined]
              handle_world) as (o' & Ho' & _ & Hzone).
  { split; vm_compute; reflexivity. }
  { repeat split; vm_compute; reflexivity. }
  { vm_compute. reflexivity. }
  vm_compute in Ho'. injection Ho' as <-.
  vm_compute in Hzone. discriminate Hzone.
Qed.

(** C7. Through any run of operations (further handles made, delete,
    setMetadata, the generic create, exists, get and getMetadata, on any
    handle, and completions by the transport), none of which is a
    setMetadata given [a] itself as metadata, the object [a] keeps its
    class and every property but [metadata]; in particular its [name]
    and its [zone]. *)
Theorem handle_name_and_zone_kept (a : loc) (o : object) (ops : list operation)
    (w : world) :
  heap w !! a = Some o →
  forallb (λ op, negb (writes_onto a op)) ops = true →
  ∃ o', heap (perform_all ops w) !! a = Some o' ∧
        class o' = class o ∧
        props o' !! "name" = props o !! "name" ∧
        props o' !! "zone" = props o !! "zone" ∧
        ∀ key, key ≠ "metadata" → props o' !! key = props o !! key.
Proof.
  intros Ho Hops.
  destruct (kept_perform_all a (λ key, key ≠ "metadata") o) with (ops := ops) (w := w)
    as (o' & Ho' & Hc & Hk); [by intros []|done|by apply kept_now|].
  exists o'. repeat split; try done; by apply Hk.
Qed.

Lemma handle_name_and_zone_kept_witness :
  let a := 2%positive in
  let cb := VFun (FnUser 7) in
  let w := with_response handle_world {[ "name" := VStr "operation-1" ]} in
  let resp := VObj (fresh (dom (heap handle_world))) in
  let ops := [ GetMetadata (VObj a) cb; Complete 0 VNull resp;
               Override (SetMetadata VUndefined) (VObj a) cb; Complete 1 VNull resp;
               Override Delete (VObj a) cb; Complete 2 VNull resp;
               Exists (VObj a) cb; Complete 3 (VStr "unreachable") VUndefined ] in
  ∃ o', heap (perform_all ops w) !! a = Some o' ∧
        class o' = class (object_at (heap w) a) ∧
        props o' !! "name" = props (object_at (heap w) a) !! "name" ∧
        props o' !! "zone" = props (object_at (heap w) a) !! "zone" ∧
        ∀ key, key ≠ "metadata" →
               props o' !! key = props (object_at (heap w) a) !! key.
Proof.
  intros a cb w resp ops.
  apply (handle_name_and_zone_kept a (object_at (heap w) a) ops w).
  - vm_compute. reflexivity.
  - vm_compute. reflexivity.
Defined.

(** ** Edges of the completions *)

(** X1. A success without a response: when the error is falsy and the
    response is [undefined] or [null], the function expression of either
    override throws a TypeError, whatever the callback and the zone; the
    callback is not called and nothing is written. *)
Theorem success_without_response_throws (o : override) (callback zone err resp : value)
    (w : world) :
  truthy err = false →
  nullish resp = true →
  resume (override_closure o callback zone) [AVal err; AVal resp] w =
    (Throw TypeError, w).
Proof.
  intros Herr Hresp.
  destruct o; simpl; unfold delete_callback, setMetadata_callback; rewrite Herr;
    destruct resp; try discriminate Hresp; by destruct zone.
Qed.

Lemma success_without_response_throws_witness :
  resume (override_closure (SetMetadata VUndefined) (VFun (FnUser 7)) (VObj 1%positive))
         [AVal VNull; AVal VUndefined] handle_world =
    (Throw TypeError, handle_world).
Proof.
  apply (success_without_response_throws (SetMetadata VUndefined) (VFun (FnUser 7))
           (VObj 1%positive) VNull VUndefined handle_world); reflexivity.
Defined.

(** X2. A success with a primitive for response (a body that is a string, a
    number or a boolean): its [name] reads as [undefined], so the
    Operation handle gets [undefined] as identifier and the primitive as
    metadata, and the callback is called with [(null, operation, resp)]. *)
Theorem success_with_primitive_response (o : override) (callback : value) (z : loc)
    (err resp : value) (w : world) :
  lookup_prop (heap w) z "operation" = VFun FnZoneOperation →
  truthy err = false →
  primitive resp = true →
  let op := fresh (dom (heap w)) in
  resume (override_closure o callback (VObj z)) [AVal err; AVal resp] w =
    (_ ← call callback VUndefined [AVal VNull; AVal (VObj op); AVal resp];
     mret VUndefined)
      (World (<[op := Object COperation
                  {[ "parent" := VObj z; "id" := VUndefined; "metadata" := resp ]}]>
                (heap w))
             (outbox w) (calls w)).
Proof.
  intros Hop Herr Hresp op.
  assert (Hname : ∀ w', get resp "name" w' = (Normal VUndefined, w')).
  { intros w'. by destruct resp. }
  destruct o; simpl; unfold delete_callback, setMetadata_callback; rewrite Herr.
  all: unfold mbind at 1, M_bind at 1; simpl; rewrite Hop.
  all: unfold mbind at 1, M_bind at 1; rewrite Hname.
  all: unfold mbind at 1, M_bind at 1; simpl.
  all: unfold mbind at 1, M_bind at 1; simpl.
  all: by rewrite store_prop_insert, operation_props.
Qed.

Lemma success_with_primitive_response_witness :
  let w := handle_world in
  let callback := VFun (FnUser 7) in
  let resp := VStr "accepted" in
  let op := fresh (dom (heap w)) in
  resume (override_closure Delete callback (VObj 1%positive)) [AVal VNull; AVal resp] w =
    (_ ← call callback VUndefined [AVal VNull; AVal (VObj op); AVal resp];
     mret VUndefined)
      (World (<[op := Object COperation
                  {[ "parent" := VObj 1%positive; "id" := VUndefined;
                     "metadata" := resp ]}]>
                (heap w))
             (outbox w) (calls w)).
Proof.
  intros w callback resp op.
  apply (success_with_primitive_response Delete callback 1%positive VNull resp w).
  - vm_compute; reflexivity.
  - reflexivity.
  - reflexivity.
Defined.

(** ** Edges of setMetadata *)

(** X4. A primitive for metadata: a truthy boolean, number or string is kept
    by [metadata || {}], and the write of [name] onto it throws a
    TypeError; nothing has been written, handed to the transport or
    called by then. *)
Theorem setMetadata_primitive_metadata_throws (w : world) (a : loc)
    (metadata callback : value) :
  primitive metadata = true →
  truthy metadata = true →
  Autoscaler_setMetadata (VObj a) metadata callback w = (Throw TypeError, w).
Proof.
  intros Hp Ht. unfold Autoscaler_setMetadata.
  unfold mbind at 1, M_bind at 1. simpl. rewrite Ht.
  unfold mbind at 1, M_bind at 1. simpl.
  unfold mbind at 1, M_bind at 1. simpl.
  by destruct metadata.
Qed.

Lemma setMetadata_primitive_metadata_throws_witness :
  Autoscaler_setMetadata (VObj 2%positive) (VStr "New description") (VFun (FnUser 7))
    handle_world = (Throw TypeError, handle_world).
Proof.
  apply (setMetadata_primitive_metadata_throws handle_world 2%positive
           (VStr "New description") (VFun (FnUser 7))); reflexivity.
Defined.

(** X3. A callback that is truthy and no function (an object, say) is not
    replaced by [util.noop]: the call is accepted, and the completion
    throws a TypeError where it calls the callback.  On a failure that is
    at once, the world as it was; on a success the Operation handle has
    been built, with the response as metadata, by then. *)
Theorem non_function_callback_throws (o : override) (w : world) (a z : loc)
    (callback : value) (w2 : world) :
  autoscaler_handle w a z →
  zone_handle w z →
  override_arg o →
  truthy callback = true →
  callable callback = false →
  outbox w2 !! length (outbox w) =
    outbox (run_override o (VObj a) callback w).2 !! length (outbox w) →
  zone_handle w2 z →
  (run_override o (VObj a) callback w).1 = Normal VUndefined ∧
  (∀ err resp, truthy err = true →
     deliver (length (outbox w)) err resp w2 = (Throw TypeError, w2)) ∧
  (∀ err r, truthy err = false →
     deliver (length (outbox w)) err (VObj r) w2 =
       (Throw TypeError,
        World (<[fresh (dom (heap w2)) := Object COperation
                   {[ "parent" := VObj z;
                      "id" := lookup_prop (heap w2) r "name";
                      "metadata" := VObj r ]}]> (heap w2))
              (outbox w2) (calls w2))).
Proof.
  intros Ha Hz Ho Ht Hc Hout Hz2.
  destruct (run_override_pending o w a z callback w2 Ha Hz Ho Hout) as [Hsync Hrun].
  assert (Hcb : or_else callback util_noop = callback).
  { unfold or_else. by rewrite Ht. }
  assert (Hcall : ∀ args w', (_ ← call callback VUndefined args; mret VUndefined) w' =
                             (Throw TypeError, w')).
  { intros args w'. by destruct callback. }
  split; [done|]. split.
  - intros err resp Herr.
    by rewrite Hrun, Hcb, resume_override_failure, Hcall.
  - intros err r Herr.
    rewrite Hrun, Hcb, resume_override_success by (done || apply Hz2).
    by rewrite Hcall.
Qed.

Lemma non_function_callback_throws_witness :
  let w := with_response handle_world {[ "done" := VBool true ]} in
  let callback := VObj (fresh (dom (heap handle_world))) in
  let o := Delete in
  let a := 2%positive in
  let z := 1%positive in
  let w2 := (run_override o (VObj a) callback w).2 in
  (run_override o (VObj a) callback w).1 = Normal VUndefined ∧
  (∀ err resp, truthy err = true →
     deliver (length (outbox w)) err resp w2 = (Throw TypeError, w2)) ∧
  (∀ err r, truthy err = false →
     deliver (length (outbox w)) err (VObj r) w2 =
       (Throw TypeError,
        World (<[fresh (dom (heap w2)) := Object COperation
                   {[ "parent" := VObj z;
                      "id" := lookup_prop (heap w2) r "name";
                      "metadata" := VObj r ]}]> (heap w2))
              (outbox w2) (calls w2))).
Proof.
  intros w callback o a z w2.
  apply (non_function_callback_throws o w a z callback w2).
  - split; vm_compute; reflexivity.
  - repeat split; vm_compute; reflexivity.
  - exact I.
  - reflexivity.
  - reflexivity.
  - reflexivity.
  - repeat split; vm_compute; reflexivity.
Defined.

(** ** Edges of the constructor *)

Lemma wp_get_nullish v key (Q : completion value → world → Prop) w :
  nullish v = true → Q (Throw TypeError) w → wp (get v key) Q w.
Proof. by destruct v. Qed.

Lemma wp_get_not_object v key (Q : completion value → world → Prop) w :
  primitive v = true → Q (Normal VUndefined) w → wp (get v key) Q w.
Proof. by destruct v. Qed.

Lemma wp_call_not_callable v this args (Q : completion value → world → Prop) w :
  callable v = false → Q (Throw TypeError) w → wp (call v this args) Q w.
Proof. by destruct v. Qed.

(** X5. A zone with no [createAutoscaler] to bind: the zone is missing
    or a primitive, or it is an object whose [createAutoscaler] is
    missing, a primitive, or an object without a [bind] function.  The
    constructor then throws a TypeError at
    [zone.createAutoscaler.bind(zone)], before the base constructor
    runs.  Nothing is handed to the transport, no function of the caller
    is called, and the objects that were there are as they were. *)
Theorem Autoscaler_without_createAutoscaler_throws (w : world) (zone name : value) :
  callable zone = false →
  (∀ l, zone = VObj l →
        is_Some (heap w !! l) ∧
        callable (lookup_prop (heap w) l "createAutoscaler") = false ∧
        ∀ c, lookup_prop (heap w) l "createAutoscaler" = VObj c →
             is_Some (heap w !! c) ∧
             callable (lookup_prop (heap w) c "bind") = false) →
  let run := new_Autoscaler zone name w in
  run.1 = Throw TypeError ∧
  outbox run.2 = outbox w ∧
  calls run.2 = calls w ∧
  ∀ l, is_Some (heap w !! l) → heap run.2 !! l = heap w !! l.
Proof.
  intros Hc Hzone run. subst run.
  cut (wp (new_Autoscaler zone name)
          (λ r w', r = Throw TypeError ∧ outbox w' = outbox w ∧ calls w' = calls w ∧
                   ∀ l, is_Some (heap w !! l) → heap w' !! l = heap w !! l) w).
  { done. }
  unfold new_Autoscaler, Autoscaler. wp_steps.
  assert (Hframe : ∀ l1, is_Some (heap w !! l1) →
            <[l0 := Object CObject
                      {[ "create" := VBool true; "exists" := VBool true;
                         "get" := VBool true; "getMetadata" := VBool true ]}]>
              (<[l := Object CAutoscaler ∅]> (heap w)) !! l1 = heap w !! l1).
  { intros l1 [o1 Ho1]. rewrite !lookup_insert_ne by congruence. done. }
  (* the zone is missing: [zone.createAutoscaler] throws *)
  destruct (nullish zone) eqn:Hnull.
  { apply wp_get_nullish; [done|]. by wp_steps. }
  (* [undefined.bind] throws, [x.bind], with [x] a primitive, is undefined *)
  assert (Hbind : ∀ v w0 (Q : completion value → world → Prop),
            callable v = false →
            (∀ c, v = VObj c → callable (lookup_prop (heap w0) c "bind") = false) →
            Q (Throw TypeError) w0 → wp (bind v zone) Q w0).
  { intros v w0 Q Hv Hobj HQ.
    destruct v as [| |b|n|s|c|f|f t]; try discriminate Hv; simpl.
    - wp_steps. by apply wp_get_nullish.
    - wp_steps. by apply wp_get_nullish.
    - wp_steps. apply wp_get_not_object; [done|]. wp_steps.
      by apply wp_call_not_callable.
    - wp_steps. apply wp_get_not_object; [done|]. wp_steps.
      by apply wp_call_not_callable.
    - wp_steps. apply wp_get_not_object; [done|]. wp_steps.
      by apply wp_call_not_callable.
    - wp_steps. apply wp_call_not_callable; [by apply Hobj|done]. }
  destruct zone as [| |b|n|s|lz|f|f t]; try discriminate Hc; try discriminate Hnull.
  - apply wp_get_not_object; [done|]. wp_steps. apply Hbind; try done.
  - apply wp_get_not_object; [done|]. wp_steps. apply Hbind; try done.
  - apply wp_get_not_object; [done|]. wp_steps. apply Hbind; try done.
  - destruct (Hzone lz eq_refl) as ([oz Hz] & Hcz & Hcb).
    wp_steps. apply Hbind; [done| |done].
    intros c Hceq. destruct (Hcb c Hceq) as [[oc Hoc] Hb]. cbn [heap].
    by heap_simpl.
Qed.

Lemma Autoscaler_without_createAutoscaler_throws_witness :
  let w := with_response zone_world {[ "name" := VStr "us-central1-a" ]} in
  let zone := VObj (fresh (dom (heap zone_world))) in
  let run := new_Autoscaler zone (VStr "autoscaler-name") w in
  run.1 = Throw TypeError ∧
  outbox run.2 = outbox w ∧
  calls run.2 = calls w ∧
  ∀ l, is_Some (heap w !! l) → heap run.2 !! l = heap w !! l.
Proof.
  intros w zone.
  apply (Autoscaler_without_createAutoscaler_throws w zone (VStr "autoscaler-name")).
  - reflexivity.
  - intros l [= <-]. split; [vm_compute; by eexists|].
    split; [vm_compute; reflexivity|].
    intros c Hc. vm_compute in Hc. discriminate Hc.
Defined.

(** ** setMetadata and the objects it is given *)

Lemma lookup_prop_same_object h h' l key :
  h' !! l = h !! l → lookup_prop h' l key = lookup_prop h l key.
Proof. intros E. unfold lookup_prop, object_at. by rewrite E. Qed.

(** X7. The zone for metadata: given the zone handle itself as metadata,
    setMetadata writes the handle's name over the zone's own [name]
    before it reads [this.zone.name], so the zone is renamed after the
    autoscaler and the [zone] sent is the autoscaler's name. *)
Theorem setMetadata_given_the_zone (w : world) (a z : loc) (callback : value) :
  autoscaler_handle w a z →
  zone_handle w z →
  let w1 := (Autoscaler_setMetadata (VObj a) (VObj z) callback w).2 in
  let name := lookup_prop (heap w) a "name" in
  lookup_prop (heap w1) z "name" = name ∧
  lookup_prop (heap w1) z "zone" = name ∧
  ∃ reqOpts k,
    outbox w1 = outbox w ++ [Request (VObj z) (VObj reqOpts) k] ∧
    lookup_prop (heap w1) reqOpts "json" = VObj z.
Proof.
  intros Ha Hz w1 name.
  destruct (Autoscaler_setMetadata_sends w a z (VObj z) callback Ha Hz)
    as (u & w1' & E & -> & Hc & body & qs & reqOpts & Hbody & Hqs & Hreq
        & Hbq & Hbr & Hqr & Hout & Hro & Hq & Hprops & Hclass & Hframe).
  { left. by eexists. }
  subst w1. rewrite E. simpl.
  destruct Hbody as [[= <-]|[[=] _]].
  assert (Hname : lookup_prop (heap w1') z "name" = name).
  { unfold lookup_prop at 1. rewrite Hprops.
    rewrite lookup_insert_ne by done. by rewrite lookup_insert_eq. }
  split; [done|]. split.
  - unfold lookup_prop at 1. rewrite Hprops, lookup_insert_eq. exact Hname.
  - exists reqOpts, (AFun (KSetMetadata (or_else callback util_noop) (VObj z))).
    split; [done|]. unfold lookup_prop, object_at. by rewrite Hro.
Qed.

Lemma setMetadata_given_the_zone_witness :
  let w := handle_world in
  let a := 2%positive in
  let z := 1%positive in
  let callback := VFun (FnUser 7) in
  let w1 := (Autoscaler_setMetadata (VObj a) (VObj z) callback w).2 in
  let name := lookup_prop (heap w) a "name" in
  lookup_prop (heap w1) z "name" = name ∧
  lookup_prop (heap w1) z "zone" = name ∧
  ∃ reqOpts k,
    outbox w1 = outbox w ++ [Request (VObj z) (VObj reqOpts) k] ∧
    lookup_prop (heap w1) reqOpts "json" = VObj z.
Proof.
  intros w a z callback w1 name.
  apply (setMetadata_given_the_zone w a z callback).
  - split; vm_compute; reflexivity.
  - repeat split; vm_compute; reflexivity.
Defined.

(** X8. The same object twice: two setMetadata calls on a handle, given the
    same metadata object (neither the handle nor the zone), hand the
    transport two requests whose bodies are that one object; the second
    call leaves the object as the first left it. *)
Theorem setMetadata_twice_shares_body (w : world) (a z m : loc) (cb1 cb2 : value) :
  autoscaler_handle w a z →
  zone_handle w z →
  m ≠ a →
  m ≠ z →
  let w1 := (Autoscaler_setMetadata (VObj a) (VObj m) cb1 w).2 in
  let w2 := (Autoscaler_setMetadata (VObj a) (VObj m) cb2 w1).2 in
  props (object_at (heap w2) m) = props (object_at (heap w1) m) ∧
  ∃ r1 r2 k1 k2,
    r1 ≠ r2 ∧
    outbox w2 = outbox w ++
      [Request (VObj z) (VObj r1) k1; Request (VObj z) (VObj r2) k2] ∧
    lookup_prop (heap w2) r1 "json" = VObj m ∧
    lookup_prop (heap w2) r2 "json" = VObj m.
Proof.
  intros Ha Hz Hma Hmz w1 w2.
  destruct (Autoscaler_setMetadata_sends w a z (VObj m) cb1 Ha Hz)
    as (u & w1' & E & -> & Hc & body & qs & r1 & Hbody & Hqs & Hr1
        & Hbq & Hbr & Hqr & Hout & Hro & Hq & Hprops & Hclass & Hframe).
  { left. by eexists. }
  destruct Hbody as [[= <-]|[[=] _]].
  subst w2 w1. rewrite E. simpl.
  assert (Ha_alloc := autoscaler_handle_allocated w a z Ha).
  assert (Hz_alloc := zone_handle_allocated w z Hz).
  assert (Hsame : ∀ l key, l ≠ m → is_Some (heap w !! l) →
            lookup_prop (heap w1') l key = lookup_prop (heap w) l key).
  { intros l key Hl Hal. apply lookup_prop_same_object. by apply Hframe. }
  assert (Ha1 : autoscaler_handle w1' a z).
  { destruct Ha as [Ha1 Ha2]. split; by rewrite Hsame. }
  assert (Hz1 : zone_handle w1' z).
  { destruct Hz as (Hz1 & Hz2 & Hz3). repeat split; by rewrite Hsame. }
  destruct (Autoscaler_setMetadata_sends w1' a z (VObj m) cb2 Ha1 Hz1)
    as (u & w2' & E2 & -> & Hc2 & body2 & qs2 & r2 & Hbody2 & Hqs2 & Hr2
        & Hbq2 & Hbr2 & Hqr2 & Hout2 & Hro2 & Hq2 & Hprops2 & Hclass2 & Hframe2).
  { left. by eexists. }
  destruct Hbody2 as [[= <-]|[[=] _]].
  rewrite E2. simpl.
  assert (Hr12 : r1 ≠ r2).
  { intros ->. rewrite Hro in Hr2. discriminate Hr2. }
  split.
  - rewrite Hprops2, Hprops.
    assert (Hzn : lookup_prop (heap w2') z "name" = lookup_prop (heap w1') z "name").
    { apply lookup_prop_same_object, Hframe2; [done|].
      apply zone_handle_allocated in Hz1. done. }
    rewrite Hzn, (Hsame a "name") by done.
    rewrite (insert_insert_ne _ "name" "zone") by done.
    by rewrite !insert_insert_eq.
  - exists r1, r2, (AFun (KSetMetadata (or_else cb1 util_noop) (VObj z))),
           (AFun (KSetMetadata (or_else cb2 util_noop) (VObj z))).
    split; [done|]. split.
    { rewrite Hout2, Hout, <- app_assoc. done. }
    split.
    + unfold lookup_prop, object_at. rewrite Hframe2; [|done|by rewrite Hro].
      by rewrite Hro.
    + unfold lookup_prop, object_at. by rewrite Hro2.
Qed.

Lemma setMetadata_twice_shares_body_witness :
  let w := with_response handle_world {[ "description" := VStr "New description" ]} in
  let a := 2%positive in
  let z := 1%positive in
  let m := fresh (dom (heap handle_world)) in
  let cb1 := VFun (FnUser 7) in
  let cb2 := VUndefined in
  let w1 := (Autoscaler_setMetadata (VObj a) (VObj m) cb1 w).2 in
  let w2 := (Autoscaler_setMetadata (VObj a) (VObj m) cb2 w1).2 in
  props (object_at (heap w2) m) = props (object_at (heap w1) m) ∧
  ∃ r1 r2 k1 k2,
    r1 ≠ r2 ∧
    outbox w2 = outbox w ++
      [Request (VObj z) (VObj r1) k1; Request (VObj z) (VObj r2) k2] ∧
    lookup_prop (heap w2) r1 "json" = VObj m ∧
    lookup_prop (heap w2) r2 "json" = VObj m.
Proof.
  intros w a z m cb1 cb2 w1 w2.
  apply (setMetadata_twice_shares_body w a z m cb1 cb2).
  - split; vm_compute; reflexivity.
  - repeat split; vm_compute; reflexivity.
  - vm_compute. discriminate.
  - vm_compute. discriminate.
Defined.

(** ** Construction, then setMetadata *)

Lemma construction_frame (w : world) (z : loc) (name : value) :
  zone_handle w z →
  ∃ (this : value) (w' : world),
    new_Autoscaler (VObj z) name w = (Normal this, w') ∧
    ∃ a : loc,
      this = VObj a ∧
      heap w !! a = None ∧
      autoscaler_handle w' a z ∧
      zone_handle w' z ∧
      lookup_prop (heap w') a "name" = name ∧
      outbox w' = outbox w ∧
      calls w' = calls w ∧
      (∀ l, is_Some (heap w !! l) → heap w' !! l = heap w !! l).
Proof.
  intros (Hop & Hreq & Hcreate).
  apply wp_normal.
  unfold new_Autoscaler, Autoscaler, ServiceObject.
  destruct (lookup_prop_allocated (heap w) z "request") as [oz Hz]; [by rewrite Hreq|].
  wp_steps. rewrite Hcreate. simpl. wp_steps.
  eexists. split; [reflexivity|]. exists l.
  split; [done|]. split; [done|].
  unfold autoscaler_handle, zone_handle. cbn [heap]. heap_simpl.
  rewrite Hop, Hreq, Hcreate. repeat split; try done.
  intros l' [o' Ho'].
  rewrite !lookup_store_prop_ne, !lookup_insert_ne by congruence. done.
Qed.

(** X6. What the constructor is given is what setMetadata sends: on the
    handle made from a zone handle and a name, a setMetadata (with a
    metadata object other than the zone, or none) hands its request to
    that zone, with the query [autoscaler] and the body's [name] both the
    name the constructor was given, and the body's [zone] the zone's
    name. *)
Theorem constructed_setMetadata (w : world) (z : loc) (name metadata callback : value) :
  zone_handle w z →
  metadata_arg metadata →
  metadata ≠ VObj z →
  ∃ (a : loc) (w' : world),
    new_Autoscaler (VObj z) name w = (Normal (VObj a), w') ∧
    let w1 := (Autoscaler_setMetadata (VObj a) metadata callback w').2 in
    ∃ (reqOpts qs body : loc) (k : arg),
      outbox w1 = outbox w ++ [Request (VObj z) (VObj reqOpts) k] ∧
      lookup_prop (heap w1) reqOpts "qs" = VObj qs ∧
      lookup_prop (heap w1) qs "autoscaler" = name ∧
      lookup_prop (heap w1) reqOpts "json" = VObj body ∧
      lookup_prop (heap w1) body "name" = name ∧
      lookup_prop (heap w1) body "zone" = lookup_prop (heap w) z "name".
Proof.
  intros Hz Hmd Hmz.
  destruct (construction_frame w z name Hz)
    as (this & w' & E & a & -> & Hfresh & Ha' & Hz' & Hname & Hout' & Hc' & Hframe').
  exists a, w'. split; [done|]. intros w1.
  destruct (Autoscaler_setMetadata_sends w' a z metadata callback Ha' Hz' Hmd)
    as (u & w1' & E1 & -> & Hc & body & qs & reqOpts & Hbody & Hqs & Hreq
        & Hbq & Hbr & Hqr & Hout & Hro & Hq & Hprops & Hclass & Hframe).
  subst w1. rewrite E1. simpl.
  pose proof (zone_handle_allocated w z Hz) as Hz_alloc.
  pose proof (zone_handle_allocated w' z Hz') as Hz_alloc'.
  assert (Hbz : body ≠ z).
  { destruct Hbody as [->|[_ Hb]]; [congruence|].
    intros ->. destruct Hz_alloc' as [? ?]. congruence. }
  assert (Hzn : lookup_prop (heap w1') z "name" = lookup_prop (heap w) z "name").
  { rewrite (lookup_prop_same_object (heap w') (heap w1')) by (by apply Hframe).
    apply lookup_prop_same_object. by apply Hframe'. }
  exists reqOpts, qs, body, (AFun (KSetMetadata (or_else callback util_noop) (VObj z))).
  split; [by rewrite Hout, Hout'|].
  split; [unfold lookup_prop, object_at; by rewrite Hro|].
  split; [unfold lookup_prop, object_at; rewrite Hq; simpl;
          by rewrite lookup_singleton_eq|].
  split; [unfold lookup_prop, object_at; by rewrite Hro|].
  split.
  - unfold lookup_prop at 1. rewrite Hprops, lookup_insert_ne by done.
    by rewrite lookup_insert_eq.
  - unfold lookup_prop at 1. by rewrite Hprops, lookup_insert_eq.
Qed.

Lemma constructed_setMetadata_witness :
  let w := zone_world in
  let z := 1%positive in
  let name := VStr "autoscaler-name" in
  ∃ (a : loc) (w' : world),
    new_Autoscaler (VObj z) name w = (Normal (VObj a), w') ∧
    let w1 := (Autoscaler_setMetadata (VObj a) VUndefined (VFun (FnUser 7)) w').2 in
    ∃ (reqOpts qs body : loc) (k : arg),
      outbox w1 = outbox w ++ [Request (VObj z) (VObj reqOpts) k] ∧
      lookup_prop (heap w1) reqOpts "qs" = VObj qs ∧
      lookup_prop (heap w1) qs "autoscaler" = name ∧
      lookup_prop (heap w1) reqOpts "json" = VObj body ∧
      lookup_prop (heap w1) body "name" = name ∧
      lookup_prop (heap w1) body "zone" = lookup_prop (heap w) z "name".
Proof.
  intros w z name.
  apply (constructed_setMetadata w z name VUndefined (VFun (FnUser 7))).
  - repeat split; vm_compute; reflexivity.
  - right; reflexivity.
  - discriminate.
Defined.

(** ** A call that throws has sent nothing *)

Lemma wp_get_cases v key (Q : completion value → world → Prop) w :
  (nullish v = true → Q (Throw TypeError) w) →
  (∀ l, v = VObj l → Q (Normal (lookup_prop (heap w) l key)) w) →
  (nullish v = false → (∀ l, v ≠ VObj l) → Q (Normal VUndefined) w) →
  wp (get v key) Q w.
Proof.
  intros Hn Ho Hp. destruct v; unfold wp; simpl;
    first [by apply Hn | by apply Ho | by apply Hp].
Qed.

Lemma wp_set_cases v key x (Q : completion () → world → Prop) w :
  (∀ l, v = VObj l →
        Q (Normal ()) (World (store_prop (heap w) l key x) (outbox w) (calls w))) →
  ((∀ l, v ≠ VObj l) → Q (Throw TypeError) w) →
  wp (set v key x) Q w.
Proof.
  intros Ho Hp. destruct v; unfold wp; simpl; first [by apply Ho | by apply Hp].
Qed.

(** A call of what is no function of the caller records no invocation;
    if it throws it has done nothing. *)
Lemma wp_call_not_user r this args (Q : completion value → world → Prop) w :
  user_function r = false →
  (∀ x w', calls w' = calls w → Q (Normal x) w') →
  (∀ e, Q (Throw e) w) →
  wp (call r this args) Q w.
Proof.
  intros Hr Hn Ht. unfold wp.
  destruct r as [| | | | | |f|f t]; simpl; try apply Ht;
    destruct f; try discriminate Hr; simpl; by apply Hn.
Qed.

(** The call of [request], and the return after it. *)
Ltac after_request :=
  apply wp_call_not_user;
  [|intros ? ? ?; unfold bind_post; by wp_steps|intros ?; by unfold bind_post].

(** [zone.request] where the zone is neither missing nor an object. *)
Ltac request_of_no_object Hnn Hno :=
  apply wp_get_cases;
  [intros Hn; rewrite Hn in Hnn; discriminate Hnn
  |let Hobj := fresh "Hobj" in intros ? Hobj; by destruct (Hno _ Hobj)
  |intros _ _; wp_steps; after_request; done].

(** X9. A delete or a setMetadata on an object [a], whatever the
    metadata and the callback, where the object's zone and parent are no
    functions and the [request] the call reaches (that of the zone, and
    for delete of the parent) is no function of the caller: the call
    itself calls no function of the caller, and if it throws (a handle
    without a zone, a primitive for metadata, a zone without a [request]
    function, ...) it has handed nothing to the transport.  The request
    is the last thing either does. *)
Theorem override_throw_sends_nothing (o : override) (a : loc) (callback : value)
    (w : world) :
  is_Some (heap w !! a) →
  callable (lookup_prop (heap w) a "zone") = false →
  callable (lookup_prop (heap w) a "parent") = false →
  (∀ l, lookup_prop (heap w) a "zone" = VObj l ∨
        lookup_prop (heap w) a "parent" = VObj l →
        user_function (lookup_prop (heap w) l "request") = false) →
  let run := run_override o (VObj a) callback w in
  calls run.2 = calls w ∧
  ∀ e, run.1 = Throw e → outbox run.2 = outbox w.
Proof.
  intros [oa Ha] _ _ Hreq run. subst run.
  cut (wp (run_override o (VObj a) callback)
          (λ r w', calls w' = calls w ∧ ∀ e, r = Throw e → outbox w' = outbox w) w).
  { done. }
  destruct o as [|metadata]; simpl.
  - unfold Autoscaler_delete, ServiceObject_delete, ServiceObject_request.
    wp_steps.
    apply wp_get_cases; [by intros _|intros lp Hp|by intros _ _].
    cbn [heap]. wp_step.
    apply wp_call_not_user.
    + destruct (decide (l = lp)) as [->|Hne].
      * unfold lookup_prop, object_at. rewrite lookup_insert_eq. reflexivity.
      * rewrite lookup_prop_insert_ne by done. apply Hreq. by right.
    + intros x w' Hc. unfold bind_post. by wp_steps.
    + intros e. by unfold bind_post.
  - unfold Autoscaler_setMetadata. wp_steps.
    destruct (truthy metadata).
    + wp_steps.
      apply wp_set_cases; [intros m ->|by intros _].
      wp_steps.
      apply wp_get_cases; [by intros _|intros lz Hz|intros Hnn Hno].
      * wp_steps. rewrite Hz. wp_steps. after_request.
        apply Hreq. by left.
      * wp_steps. request_of_no_object Hnn Hno.
    + wp_steps.
      apply wp_get_cases; [by intros _|intros lz Hz|intros Hnn Hno].
      * wp_steps. rewrite Hz. wp_steps. after_request.
        destruct (decide (l = lz)) as [->|Hllz].
        -- unfold lookup_prop, object_at. rewrite lookup_insert_eq. reflexivity.
        -- rewrite lookup_prop_insert_ne by done. apply Hreq. by left.
      * wp_steps. request_of_no_object Hnn Hno.
Qed.

Lemma override_throw_sends_nothing_witness :
  let o := SetMetadata (VStr "New description") in
  let a := 2%positive in
  let callback := VFun (FnUser 7) in
  let run := run_override o (VObj a) callback handle_world in
  calls run.2 = calls handle_world ∧
  ∀ e, run.1 = Throw e → outbox run.2 = outbox handle_world.
Proof.
  intros o a callback.
  apply (override_throw_sends_nothing o a callback handle_world).
  - vm_compute. by eexists.
  - vm_compute; reflexivity.
  - vm_compute; reflexivity.
  - intros l [H|H]; vm_compute in H; injection H as <-; vm_compute; reflexivity.
Defined.

(** ** A handle whose zone is no object *)

Lemma wp_get_primitive v key (Q : completion value → world → Prop) w :
  primitive v = true → Q (Normal VUndefined) w → wp (get v key) Q w.
Proof. by destruct v. Qed.

(** X10. Once the [zone] of a handle is a primitive (as it is after a
    setMetadata that was given the handle itself, the zone's name being a
    string), every setMetadata on the handle throws a TypeError, at
    [zone.request], and so sends nothing. *)
Theorem setMetadata_without_zone_object_throws (w : world) (a : loc)
    (metadata callback : value) :
  primitive (lookup_prop (heap w) a "zone") = true →
  metadata_arg metadata →
  let run := Autoscaler_setMetadata (VObj a) metadata callback w in
  run.1 = Throw TypeError ∧ outbox run.2 = outbox w ∧ calls run.2 = calls w.
Proof.
  intros Hzone Hmd run. subst run.
  cut (wp (Autoscaler_setMetadata (VObj a) metadata callback)
          (λ r w', r = Throw TypeError ∧ outbox w' = outbox w ∧ calls w' = calls w) w).
  { done. }
  destruct (lookup_prop_allocated (heap w) a "zone") as [oa Ha].
  { intros E. by rewrite E in Hzone. }
  unfold Autoscaler_setMetadata. wp_steps.
  destruct Hmd as [[m ->]|Hmd].
  - simpl. wp_steps. apply wp_get_primitive; [done|]. wp_steps.
    apply wp_get_primitive; [done|]. wp_steps.
    by destruct (lookup_prop (heap w) a "zone").
  - rewrite Hmd. wp_steps. apply wp_get_primitive; [done|]. wp_steps.
    apply wp_get_primitive; [done|]. wp_steps.
    by destruct (lookup_prop (heap w) a "zone").
Qed.

Lemma setMetadata_without_zone_object_throws_witness :
  let a := 2%positive in
  let w := (Autoscaler_setMetadata (VObj a) (VObj a) VUndefined handle_world).2 in
  let run := Autoscaler_setMetadata (VObj a) VUndefined (VFun (FnUser 7)) w in
  run.1 = Throw TypeError ∧ outbox run.2 = outbox w ∧ calls run.2 = calls w.
Proof.
  intros a w.
  apply (setMetadata_without_zone_object_throws w a VUndefined (VFun (FnUser 7))).
  - vm_compute; reflexivity.
  - right; reflexivity.
Defined.
